(** * Word-timing alignment and segment planning

    A shallow embedding of the timeline builder of [utils.py]
    ([get_words_with_timestamps]), of the suggestion parser of
    [LLM_utils.py] ([parse_video_suggestions]) and of the coverage
    reconciler described in the design document, with the properties
    stated about them.

    Conventions.
    - Times are seconds.  The Python code computes with JSON numbers; they are
      modelled as exact rationals ([Q]), compared numerically ([Qle], [Qeq]).
    - A Python exception is a value: functions that can raise return
      [result A], either [Ok a] or [Raise e].
    - The three JSON stores are finite maps.  Python keys them by the strings
      [str(surah)], [f"{surah}:{aya}"] and [f"{surah}:{aya}:{position}"]; as
      [str] is injective on integers the maps are keyed here by the integers
      themselves. *)

Set Warnings "-register-all".
From Stdlib Require Import ZArith QArith Qminmax Lqa Lia List Ascii String Bool.
From stdpp Require Import base option list strings gmap.
From stdpp Require Import pretty sorting.
Import ListNotations.

Local Open Scope Z_scope.

(* ===================================================================== *)
(** ** Python values *)
(* ===================================================================== *)

Module Py.

(** The exceptions the modelled code can raise. *)
Inductive exn : Type :=
| KeyError
| IndexError
| AttributeError
| TypeError
| ValueError
| ParseError
| Exception (cause : exn).

Inductive result (A : Type) : Type :=
| Ok (a : A)
| Raise (e : exn).
Arguments Ok {A} a.
Arguments Raise {A} e.

Definition bind {A B} (m : result A) (k : A -> result B) : result B :=
  match m with
  | Ok a => k a
  | Raise e => Raise e
  end.

(** [d[k]] on a dict. *)
Definition getitem `{Lookup K V M} (d : M) (k : K) : result V :=
  match d !! k with
  | Some v => Ok v
  | None => Raise KeyError
  end.

(** [l[i]] on a list: a negative index counts from the end, anything
    outside [-len(l) .. len(l) - 1] raises [IndexError]. *)
Definition index {A} (l : list A) (i : Z) : result A :=
  let n := Z.of_nat (length l) in
  let j := if i <? 0 then i + n else i in
  if (0 <=? j) && (j <? n)
  then match l !! Z.to_nat j with
       | Some a => Ok a
       | None => Raise IndexError
       end
  else Raise IndexError.

(** [range(a, b)]. *)
Definition range (a b : Z) : list Z :=
  map (fun k => a + Z.of_nat k) (seq 0 (Z.to_nat (b - a))).

(** The characters [str.split()] treats as separators (ASCII). *)
Definition is_space (c : ascii) : bool :=
  let n := nat_of_ascii c in
  ((9 <=? n) && (n <=? 13) || (28 <=? n) && (n <=? 32))%nat.

(** [s.split()]: the maximal runs of non-blank characters.  [cur] is the
    word being read, if any. *)
Fixpoint split_from (cur : option string) (s : string) : list string :=
  match s with
  | EmptyString =>
      match cur with Some w => [w] | None => [] end
  | String c s' =>
      if is_space c
      then match cur with
           | Some w => w :: split_from None s'
           | None => split_from None s'
           end
      else match cur with
           | Some w => split_from (Some (w +:+ String c EmptyString)) s'
           | None => split_from (Some (String c EmptyString)) s'
           end
  end.

Definition split (s : string) : list string := split_from None s.

End Py.

Abbreviation Ok := Py.Ok.
Abbreviation Raise := Py.Raise.

#[global] Instance result_bind : MBind Py.result := fun A B k m => Py.bind m k.
#[global] Instance result_ret : MRet Py.result := fun A a => Py.Ok a.

(* ===================================================================== *)
(** ** The timeline builder ([utils.py]) *)
(* ===================================================================== *)

Module Timeline.

(** One entry [[word_position, start, end]] of a verse's ["segments"]. *)
Record Segment : Type := mkSegment {
  seg_position : Z;
  seg_start : Q;
  seg_end : Q
}.

(** The value stored under ["surah:aya"] in the timestamp file; a JSON
    [null] duration is [None]. *)
Record TimestampEntry : Type := mkEntry {
  segments : list Segment;
  audio_url : string;
  duration : option Q
}.

(** The dictionary built for each word ([end] is a keyword, hence
    [end_]). *)
Record WordInfo : Type := mkWord {
  word : string;
  surah : Z;
  aya : Z;
  word_position : Z;
  start : Q;
  end_ : Q;
  translation : string
}.

(** The variables the verse loop updates. *)
Record LoopState : Type := mkState {
  offset : Q;
  result : list WordInfo;
  audio_urls : list string
}.

Section Builder.

Variable quran_data : gmap Z (gmap Z string).
Variable timestamp_data : gmap (Z * Z) TimestampEntry.
Variable translation_data : gmap (Z * Z * Z) string.
Variable surah_number : Z.

(** [quran_data[surah_str][str(aya_number)]["displayText"]]. *)
Definition aya_text (aya_number : Z) : Py.result string :=
  verses ← Py.getitem quran_data surah_number;
  Py.getitem verses aya_number.

(** The dictionary literal of the inner loop: the word lookup is evaluated
    before the translation lookup. *)
Definition word_info (aya_number : Z) (words : list string) (offset : Q)
    (segment : Segment) : Py.result WordInfo :=
  let word_key := (surah_number, aya_number, seg_position segment) in
  let word_index := seg_position segment - 1 in
  w ← Py.index words word_index;
  t ← Py.getitem translation_data word_key;
  Ok {| word := w;
        surah := surah_number;
        aya := aya_number;
        word_position := seg_position segment;
        start := seg_start segment + offset;
        end_ := seg_end segment + offset;
        translation := t |}.

(** [for i, segment in enumerate(segments)]: [i] is the enumeration index
    of the head of [segs]. *)
Fixpoint match_words (aya_number : Z) (words : list string) (offset : Q)
    (i : nat) (segs : list Segment) (result : list WordInfo)
    : Py.result (list WordInfo) :=
  match segs with
  | [] => Ok result
  | segment :: rest =>
      if (length words <=? i)%nat then Ok result
      else
        info ← word_info aya_number words offset segment;
        match_words aya_number words offset (S i) rest (result ++ [info])
  end.

(** [result[-1]["end"]]. *)
Definition last_end (result : list WordInfo) : Py.result Q :=
  info ← Py.index result (-1);
  Ok (end_ info).

(** The body of [for aya_number in range(aya_start, aya_end + 1)]. The two
    guarded lookups [continue] on [KeyError]; nothing else is guarded. *)
Definition process_aya (st : LoopState) (aya_number : Z)
    : Py.result LoopState :=
  match aya_text aya_number with
  | Raise _ => Ok st
  | Ok text =>
      let words := Py.split text in
      match Py.getitem timestamp_data (surah_number, aya_number) with
      | Raise _ => Ok st
      | Ok entry =>
          result' ← match_words aya_number words (offset st) 0
                      (segments entry) (result st);
          let audio_urls' := audio_urls st ++ [audio_url entry] in
          advance ← match duration entry with
                    | Some d => Ok d
                    | None => last_end result'
                    end;
          Ok {| offset := offset st + advance;
                result := result';
                audio_urls := audio_urls' |}
      end
  end.

Fixpoint verse_loop (ayas : list Z) (st : LoopState) : Py.result LoopState :=
  match ayas with
  | [] => Ok st
  | aya_number :: rest =>
      st' ← process_aya st aya_number;
      verse_loop rest st'
  end.

Definition initial : LoopState :=
  {| offset := 0; result := []; audio_urls := [] |}.

End Builder.

(** The whole function.  Each store is [None] when its file could not be
    read, in which case the function returns the empty list.  The audio
    download and concatenation after the loop do not touch [result] and are
    left out. *)
Definition get_words_with_timestamps
    (quran_data : option (gmap Z (gmap Z string)))
    (timestamp_data : option (gmap (Z * Z) TimestampEntry))
    (translation_data : option (gmap (Z * Z * Z) string))
    (surah_number aya_start aya_end : Z) : Py.result (list WordInfo) :=
  match quran_data, timestamp_data, translation_data with
  | Some q, Some t, Some tr =>
      st ← verse_loop q t tr surah_number
             (Py.range aya_start (aya_end + 1)) initial;
      Ok (result st)
  | _, _, _ => Ok []
  end.

End Timeline.

(* ===================================================================== *)
(** ** Element trees ([xml.etree.ElementTree]) *)
(* ===================================================================== *)

Module Xml.

(** An element: its tag, the character data before its first child
    ([text]), its children, and the character data after its end tag
    ([tail]).  Absent character data is [None], as in Python. *)
Inductive Element : Type :=
| Elem (tag : string) (text : option string) (children : list Element)
       (tail : option string).

Definition tag (e : Element) : string :=
  match e with Elem t _ _ _ => t end.

Definition text (e : Element) : option string :=
  match e with Elem _ t _ _ => t end.

Definition children (e : Element) : list Element :=
  match e with Elem _ _ c _ => c end.

(** [e.find(name)] for a plain tag name: the first child with that tag. *)
Definition find (name : string) (e : Element) : option Element :=
  List.find (fun c => bool_decide (tag c = name)) (children e).

(** Every element below [e], in document order. *)
Fixpoint descendants (e : Element) : list Element :=
  match e with
  | Elem _ _ kids _ =>
      (fix below (l : list Element) : list Element :=
         match l with
         | [] => []
         | k :: l' => k :: descendants k ++ below l'
         end) kids
  end.

(** [e.findall(".//name")]. *)
Definition findall_below (name : string) (e : Element) : list Element :=
  List.filter (fun d => bool_decide (tag d = name)) (descendants e).

(** *** A reader for the tag-and-text fragment of XML

    [fromstring] below reads documents made of start tags [<name>], end
    tags [</name>], empty-element tags [<name/>] and character data.
    Attributes, entity references, comments, CDATA sections and processing
    instructions are outside this fragment and are refused. *)

Inductive token : Type :=
| TOpen (name : string)
| TClose (name : string)
| TEmpty (name : string)
| TText (s : string).

Definition is_name_start (c : ascii) : bool :=
  let n := nat_of_ascii c in
  ((65 <=? n) && (n <=? 90) || (97 <=? n) && (n <=? 122)
   || (n =? 95) || (n =? 58))%nat.

Definition is_name_char (c : ascii) : bool :=
  let n := nat_of_ascii c in
  (is_name_start c || (48 <=? n) && (n <=? 57) || (n =? 45) || (n =? 46))%nat.

Fixpoint all_chars (p : ascii -> bool) (s : string) : bool :=
  match s with
  | EmptyString => true
  | String c s' => p c && all_chars p s'
  end.

Definition valid_name (s : string) : bool :=
  match s with
  | EmptyString => false
  | String c s' => is_name_start c && all_chars is_name_char s'
  end.

(** Splits [name/] into [Some name]. *)
Fixpoint strip_slash (s : string) : option string :=
  match s with
  | EmptyString => None
  | String c EmptyString => if Ascii.eqb c "/" then Some EmptyString else None
  | String c s' => option_map (String c) (strip_slash s')
  end.

(** The token for the characters found between [<] and [>]. *)
Definition classify (body : string) : option token :=
  match body with
  | String "/" name => if valid_name name then Some (TClose name) else None
  | _ =>
      match strip_slash body with
      | Some name => if valid_name name then Some (TEmpty name) else None
      | None => if valid_name body then Some (TOpen body) else None
      end
  end.

Definition flush (chars : string) (ts : list token) : list token :=
  match chars with
  | EmptyString => ts
  | _ => TText chars :: ts
  end.

(** [chars] is the character data read so far; [markup] is [Some body] while
    inside a tag. *)
Fixpoint lex (s : string) (chars : string) (markup : option string)
    : option (list token) :=
  match s with
  | EmptyString =>
      match markup with
      | Some _ => None
      | None => Some (flush chars [])
      end
  | String c s' =>
      match markup with
      | None =>
          if Ascii.eqb c "<" then
            option_map (flush chars) (lex s' EmptyString (Some EmptyString))
          else if Ascii.eqb c "&" then None
          else lex s' (chars +:+ String c EmptyString) None
      | Some body =>
          if Ascii.eqb c ">" then
            match classify body, lex s' EmptyString None with
            | Some t, Some ts => Some (t :: ts)
            | _, _ => None
            end
          else if Ascii.eqb c "<" then None
          else lex s' chars (Some (body +:+ String c EmptyString))
      end
  end.

(** An element whose end tag has not been read yet; [f_kids] is in reverse
    order. *)
Record frame : Type := mkFrame {
  f_tag : string;
  f_text : option string;
  f_kids : list Element
}.

Definition more (old : option string) (s : string) : option string :=
  match old with
  | None => Some s
  | Some o => Some (o +:+ s)
  end.

Definition add_text (s : string) (f : frame) : frame :=
  match f_kids f with
  | [] => mkFrame (f_tag f) (more (f_text f) s) []
  | Elem t x c tl :: ks => mkFrame (f_tag f) (f_text f) (Elem t x c (more tl s) :: ks)
  end.

Definition add_kid (k : Element) (f : frame) : frame :=
  mkFrame (f_tag f) (f_text f) (k :: f_kids f).

Definition close (f : frame) : Element :=
  Elem (f_tag f) (f_text f) (rev (f_kids f)) None.

(** [stack] holds the open elements, innermost first; [root] is the
    document element once it is closed. *)
Fixpoint build (ts : list token) (stack : list frame) (root : option Element)
    : option Element :=
  match ts with
  | [] => match stack with [] => root | _ :: _ => None end
  | t :: ts' =>
      match t, stack with
      | TText s, [] => if all_chars Py.is_space s then build ts' [] root else None
      | TText s, f :: st => build ts' (add_text s f :: st) root
      | TOpen n, [] =>
          match root with
          | None => build ts' [mkFrame n None []] None
          | Some _ => None
          end
      | TOpen n, _ :: _ => build ts' (mkFrame n None [] :: stack) root
      | TEmpty n, [] =>
          match root with
          | None => build ts' [] (Some (Elem n None [] None))
          | Some _ => None
          end
      | TEmpty n, f :: st => build ts' (add_kid (Elem n None [] None) f :: st) root
      | TClose n, [] => None
      | TClose n, f :: st =>
          if String.eqb (f_tag f) n then
            match st with
            | [] => build ts' [] (Some (close f))
            | p :: st' => build ts' (add_kid (close f) p :: st') root
            end
          else None
      end
  end.



Definition fromstring (s : string) : option Element :=
  match lex s EmptyString None with
  | Some ts => build ts [] None
  | None => None
  end.

End Xml.

(* ===================================================================== *)
(** ** The suggestion parser ([LLM_utils.py]) *)
(* ===================================================================== *)

Module Parser.

(** The dataclass.  [keywords] is whatever [.text] holds, so it is [None]
    for a [query] element without character data. *)
Record VideoSuggestion : Type := mkSuggestion {
  keywords : option string;
  start_time : Q;
  end_time : Q
}.

(** *** Decimal literals

    [decimal] reads an optional sign, digits and an optional fraction, with
    blanks allowed around them: the literals of Python's [float] that denote
    a finite number without an exponent. *)

Definition digit (c : ascii) : option Z :=
  let n := nat_of_ascii c in
  if ((48 <=? n) && (n <=? 57))%nat then Some (Z.of_nat n - 48) else None.

Fixpoint scan (s : string) (num : Z) (den : positive) (dot any : bool)
    : option Q :=
  match s with
  | EmptyString => if any then Some (num # den) else None
  | String c s' =>
      match digit c with
      | Some d =>
          scan s' (10 * num + d) (if dot then (10 * den)%positive else den)
               dot true
      | None =>
          if Ascii.eqb c "." && negb dot then scan s' num den true any
          else if Xml.all_chars Py.is_space s && any then Some (num # den)
          else None
      end
  end.

Fixpoint lstrip (s : string) : string :=
  match s with
  | String c s' => if Py.is_space c then lstrip s' else s
  | EmptyString => s
  end.

Definition decimal (s : string) : option Q :=
  match lstrip s with
  | String "-" s' => option_map Qopp (scan s' 0 1 false false)
  | String "+" s' => scan s' 0 1 false false
  | s' => scan s' 0 1 false false
  end.

Section Parse.

(** The two library functions the parser relies on: [ET.fromstring], which
    gives the root element or fails, and [float] on a string. *)
Variable fromstring : string -> option Xml.Element.
Variable float_of_str : string -> option Q.

(** [elem.text] where [elem] may be [None]. *)
Definition text_of (elem : option Xml.Element) : Py.result (option string) :=
  match elem with
  | Some e => Ok (Xml.text e)
  | None => Raise Py.AttributeError
  end.

(** [float(x)] where [x] may be [None]. *)
Definition float (x : option string) : Py.result Q :=
  match x with
  | None => Raise Py.TypeError
  | Some s =>
      match float_of_str s with
      | Some q => Ok q
      | None => Raise Py.ValueError
      end
  end.

(** The constructor call of the loop body; its arguments are evaluated in
    order. *)
Definition suggestion_of (video_elem : Xml.Element)
    : Py.result VideoSuggestion :=
  k ← text_of (Xml.find "query" video_elem);
  s ← text_of (Xml.find "start" video_elem);
  s ← float s;
  e ← text_of (Xml.find "end" video_elem);
  e ← float e;
  Ok {| keywords := k; start_time := s; end_time := e |}.

(** [for video_elem in ...: suggestions.append(...)]. *)
Fixpoint collect (elems : list Xml.Element)
    (suggestions : list VideoSuggestion) : Py.result (list VideoSuggestion) :=
  match elems with
  | [] => Ok suggestions
  | video_elem :: rest =>
      suggestion ← suggestion_of video_elem;
      collect rest (suggestions ++ [suggestion])
  end.

(** The body of the [try] block. *)
Definition parse_body (llm_output : string)
    : Py.result (list VideoSuggestion) :=
  let xml_string := "<root>" +:+ llm_output +:+ "</root>" in
  match fromstring xml_string with
  | None => Raise Py.ParseError
  | Some root => collect (Xml.findall_below "video" root) []
  end.

(** Any exception of the body is raised again as a plain [Exception]. *)
Definition parse_video_suggestions (llm_output : string)
    : Py.result (list VideoSuggestion) :=
  match parse_body llm_output with
  | Ok suggestions => Ok suggestions
  | Raise e => Raise (Py.Exception e)
  end.

(** A [video] element the loop body cannot turn into a suggestion. *)
Definition missing (field : string) (video_elem : Xml.Element) : Prop :=
  Xml.find field video_elem = None.

Definition non_numeric (field : string) (video_elem : Xml.Element) : Prop :=
  exists e, Xml.find field video_elem = Some e /\
    match Xml.text e with
    | Some s => float_of_str s = None
    | None => True
    end.

Definition malformed (video_elem : Xml.Element) : Prop :=
  missing "query" video_elem \/ missing "start" video_elem \/
  missing "end" video_elem \/
  non_numeric "start" video_elem \/ non_numeric "end" video_elem.

End Parse.

End Parser.

(* ===================================================================== *)
(** ** The coverage reconciler (design document, section 4.4) *)
(* ===================================================================== *)

Module Reconciler.

(** Modelled from the spec: the SegmentSuggestion / VideoSegment record
    [{query, start_time, end_time}] of section 3; the repository has no
    reconciler code. *)
Record Segment : Type := mkSegment {
  query : string;
  start_time : Q;
  end_time : Q
}.
























End Reconciler.

(* ===================================================================== *)
(** ** Statements about timelines *)
(* ===================================================================== *)

Module TimelineSpec.

Import Timeline.

(** Intervals [(start, end)] listed in time order between [lo] and [hi]:
    each starts no earlier than its predecessor ends, and ends no earlier
    than it starts. *)
Fixpoint between (lo hi : Q) (l : list (Q * Q)) : Prop :=
  match l with
  | [] => (lo <= hi)%Q
  | (s, e) :: l' => (lo <= s)%Q /\ (s <= e)%Q /\ between e hi l'
  end.

Definition span (s : Segment) : Q * Q := (seg_start s, seg_end s).

Definition times (w : WordInfo) : Q * Q := (start w, end_ w).

(** The local end time of the last segment, [lo] when there is none. *)
Fixpoint last_local_end (lo : Q) (segs : list Segment) : Q :=
  match segs with
  | [] => lo
  | s :: segs' => last_local_end (seg_end s) segs'
  end.

(** A valid verse: its segments are in increasing, non-overlapping order on
    the verse's zero-based clock, and a declared duration reaches the last
    local end time. *)
Definition valid_entry (e : TimestampEntry) : Prop :=
  let last_end := last_local_end 0 (segments e) in
  between 0 last_end (span <$> segments e) /\
  forall d, duration e = Some d -> (last_end <= d)%Q.

(** The returned sequence is time-monotonic. *)
Definition monotonic (l : list WordInfo) : Prop :=
  forall (i : nat) (a b : WordInfo),
    l !! i = Some a -> l !! S i = Some b -> (end_ a <= start b)%Q.

(** *** The algorithm as the design document words it

    [spec_timeline] follows the description of the Timeline Builder: a
    running offset, one record per timestamp segment, the offset advanced
    after each verse. *)
Section Worded.

Variable quran_data : gmap Z (gmap Z string).
Variable timestamp_data : gmap (Z * Z) TimestampEntry.
Variable translation_data : gmap (Z * Z * Z) string.
Variable surah_number : Z.

Definition spec_words (aya_number : Z) : list string :=
  match quran_data !! surah_number ≫= (.!! aya_number) with
  | Some text => Py.split text
  | None => []
  end.

Definition spec_segments (aya_number : Z) : list Segment :=
  match timestamp_data !! (surah_number, aya_number) with
  | Some entry => segments entry
  | None => []
  end.

Definition spec_duration (aya_number : Z) : option Q :=
  timestamp_data !! (surah_number, aya_number) ≫= duration.

(** "each timestamp segment's 1-based word_position selects the split word
    at index position - 1; the record has start = local start + offset and
    end = local end + offset". *)
Definition spec_record (aya_number : Z) (offset : Q) (s : Segment)
    : WordInfo :=
  {| word := nth (Z.to_nat (seg_position s - 1)) (spec_words aya_number) "";
     surah := surah_number;
     aya := aya_number;
     word_position := seg_position s;
     start := seg_start s + offset;
     end_ := seg_end s + offset;
     translation :=
       default "" (translation_data !! (surah_number, aya_number, seg_position s)) |}.

(** "the offset advances by the verse's declared audio duration when it is
    not null, and otherwise by the end time of that verse's last emitted
    word record". *)
Definition spec_advance (aya_number : Z) (records : list WordInfo) : Q :=
  match spec_duration aya_number with
  | Some d => d
  | None => match last records with Some w => end_ w | None => 0 end
  end.

Fixpoint spec_timeline (ayas : list Z) (offset : Q) : list WordInfo :=
  match ayas with
  | [] => []
  | aya_number :: rest =>
      let records :=
        spec_record aya_number offset <$> spec_segments aya_number in
      records ++ spec_timeline rest (offset + spec_advance aya_number records)
  end.

(** The inputs on which the description says what happens: the verse is in
    the three stores, every word position names one of its words, it has no
    more segments than words, and a verse without a declared duration has a
    segment to take the end time from. *)
Definition regular (aya_number : Z) : Prop :=
  is_Some (quran_data !! surah_number ≫= (.!! aya_number)) /\
  is_Some (timestamp_data !! (surah_number, aya_number)) /\
  (length (spec_segments aya_number) <= length (spec_words aya_number))%nat /\
  Forall (fun s =>
            1 <= seg_position s <= Z.of_nat (length (spec_words aya_number)) /\
            is_Some (translation_data !! (surah_number, aya_number, seg_position s)))
         (spec_segments aya_number) /\
  (spec_duration aya_number = None -> spec_segments aya_number <> []).

(** What a verse found in both stores does to the loop state: [recs] are the
    records of its first [len(words)] segments and [adv] is the advance of
    the offset. *)
Definition verse_step (st st' : LoopState) (aya_number : Z)
    (words : list string) (entry : TimestampEntry) : Prop :=
  exists recs adv,
    Forall2 (fun s w =>
               word_info translation_data surah_number aya_number words
                         (offset st) s = Ok w)
            (take (length words) (segments entry)) recs /\
    match duration entry with
    | Some d => adv = d
    | None => exists w, last (result st ++ recs) = Some w /\ adv = end_ w
    end /\
    st' = {| offset := offset st + adv;
             result := result st ++ recs;
             audio_urls := audio_urls st ++ [audio_url entry] |}.

End Worded.

(** The invariant of the verse loop: the records are in time order and end
    no later than the running offset. *)
Definition in_order (st : LoopState) : Prop :=
  between 0 (offset st) (times <$> result st).

(** The segments the inner loop reaches before its guard [i >= len(words)]
    stops it. *)
Definition processed (words : list string) (segs : list Segment)
    : list Segment :=
  take (length words) segs.

Definition lookups_in_bounds (words : list string) (segs : list Segment)
    : Prop :=
  Forall (fun s => exists w, Py.index words (seg_position s - 1) = Ok w)
         (processed words segs).

Definition positions_one_based (words : list string) (segs : list Segment)
    : Prop :=
  Forall (fun s => 1 <= seg_position s <= Z.of_nat (length words))
         (processed words segs).

Definition positions_indexable (words : list string) (segs : list Segment)
    : Prop :=
  Forall (fun s => 1 - Z.of_nat (length words) <= seg_position s
                   <= Z.of_nat (length words))
         (processed words segs).

(** The record the builder emits for segment [s] of a verse. *)
Definition emitted (surah_number aya_number : Z) (offset : Q) (s : Segment)
    (w : WordInfo) : Prop :=
  surah w = surah_number /\ aya w = aya_number /\
  word_position w = seg_position s /\
  start w = (seg_start s + offset)%Q /\
  end_ w = (seg_end s + offset)%Q.

End TimelineSpec.

(* ===================================================================== *)
(** ** Sample data *)
(* ===================================================================== *)

Module Sample.

Import Timeline.

Local Open Scope Q_scope.

Definition quran : gmap Z (gmap Z string) :=
  {[ 1%Z := {[ 1%Z := "a b"; 2%Z := "c d e"; 3%Z := "f";
               4%Z := "g h"; 5%Z := "i j" ]} ]}.

(** Verse 3 has two segments for one word; verse 4 has a segment with word
    position 0 and verse 5 one with word position 3. *)
Definition timestamps : gmap (Z * Z) TimestampEntry :=
  {[ (1, 1)%Z := mkEntry [mkSegment 1 0 0.5; mkSegment 2 0.5 1] "u1" (Some 1.5);
     (1, 2)%Z := mkEntry [mkSegment 1 0 1; mkSegment 2 1 2; mkSegment 3 2 3]
                         "u2" None;
     (1, 3)%Z := mkEntry [mkSegment 1 0 2; mkSegment 9 2 3] "u3" None;
     (1, 4)%Z := mkEntry [mkSegment 0 0 1] "u4" (Some 1);
     (1, 5)%Z := mkEntry [mkSegment 1 0 1; mkSegment 3 1 2] "u5" (Some 2) ]}.

Definition translations : gmap (Z * Z * Z) string :=
  {[ (1, 1, 1)%Z := "A"; (1, 1, 2)%Z := "B";
     (1, 2, 1)%Z := "C"; (1, 2, 2)%Z := "D"; (1, 2, 3)%Z := "E";
     (1, 3, 1)%Z := "F";
     (1, 4, 0)%Z := "G";
     (1, 5, 1)%Z := "I"; (1, 5, 3)%Z := "J" ]}.

(** The stores with verse 2 missing from the timestamp store, and with the
    translation of its second word missing. *)
Definition timestamps_without_2 : gmap (Z * Z) TimestampEntry :=
  delete (1, 2)%Z timestamps.

Definition translations_without_2 : gmap (Z * Z * Z) string :=
  delete (1, 2, 2)%Z translations.

(** The element of the design document's parser example, and the same
    element without its [end] child. *)
Definition desert_video : string :=
  "<video><query>desert</query><start>0</start><end>3.2</end></video>".


Definition desert : Parser.VideoSuggestion :=
  {| Parser.keywords := Some "desert"%string;
     Parser.start_time := 0;
     Parser.end_time := 3.2 |}.





End Sample.

(* ===================================================================== *)
(** ** More statements about the timeline builder *)
(* ===================================================================== *)

Module TimelineMore.

Import Timeline.

Section Found.

Variable quran_data : gmap Z (gmap Z string).
Variable timestamp_data : gmap (Z * Z) TimestampEntry.
Variable surah_number : Z.

(** The split text and the timestamp entry of a verse the loop does not
    skip: [None] when either guarded lookup raises [KeyError]. *)
Definition found (aya_number : Z) : option (list string * TimestampEntry) :=
  match quran_data !! surah_number ≫= (.!! aya_number),
        timestamp_data !! (surah_number, aya_number) with
  | Some text, Some entry => Some (Py.split text, entry)
  | _, _ => None
  end.


(** The audio URLs of the verses of [ayas] that are found. *)
Definition found_urls (ayas : list Z) : list string :=
  omap (fun a => (fun p => audio_url p.2) <$> found a) ayas.

End Found.

(** Where a record comes from: a segment of its verse's entry gives its
    position and its duration, the verse's split text its word and the
    translation store its translation. *)
Definition traced (quran_data : gmap Z (gmap Z string))
    (timestamp_data : gmap (Z * Z) TimestampEntry)
    (translation_data : gmap (Z * Z * Z) string)
    (surah_number : Z) (w : WordInfo) : Prop :=
  exists text entry s,
    quran_data !! surah_number ≫= (.!! aya w) = Some text /\
    timestamp_data !! (surah_number, aya w) = Some entry /\
    In s (segments entry) /\
    seg_position s = word_position w /\
    Py.index (Py.split text) (word_position w - 1) = Ok (word w) /\
    translation_data !! (surah_number, aya w, word_position w)
      = Some (translation w) /\
    (end_ w - start w == seg_end s - seg_start s)%Q.

(** The records one verse contributes: none when it is skipped, otherwise
    those of its first [len(words)] segments at some offset. *)
Definition verse_records (quran_data : gmap Z (gmap Z string))
    (timestamp_data : gmap (Z * Z) TimestampEntry)
    (translation_data : gmap (Z * Z * Z) string)
    (surah_number aya_number : Z) (recs : list WordInfo) : Prop :=
  match found quran_data timestamp_data surah_number aya_number with
  | None => recs = []
  | Some (words, entry) =>
      exists off,
        Forall2 (fun s w =>
                   word_info translation_data surah_number aya_number words
                             off s = Ok w)
                (take (length words) (segments entry)) recs
  end.

(** Records listed verse by verse, in increasing verse order. *)
Definition verse_ordered (l : list WordInfo) : Prop :=
  forall (i j : nat) (a b : WordInfo),
    (i <= j)%nat -> l !! i = Some a -> l !! j = Some b -> aya a <= aya b.

End TimelineMore.

(* ===================================================================== *)
(** ** Paths ([os.path]) *)
(* ===================================================================== *)

Module Os.

(** [os.path.join(a, b)] on POSIX: an absolute [b] replaces [a]; otherwise a
    slash is put between them unless [a] is empty or ends with one. *)
Fixpoint ends_with_slash (s : string) : bool :=
  match s with
  | EmptyString => false
  | String c EmptyString => Ascii.eqb c "/"
  | String _ s' => ends_with_slash s'
  end.

Definition path_join (a b : string) : string :=
  match b with
  | String "/" _ => b
  | _ =>
      match a with
      | EmptyString => b
      | _ => if ends_with_slash a then a +:+ b else a +:+ "/" +:+ b
      end
  end.

End Os.

(* ===================================================================== *)
(** ** Stock footage selection ([pexel_utils.py]) *)
(* ===================================================================== *)

Module Pexels.

(** An entry of the search result's ["videos"] list; a field is [None] when
    the key is absent. *)
Record Video : Type := mkVideo {
  video_id : option Z;
  video_duration : option Z
}.

(** An entry of a video's ["video_files"] list; a field is [None] when the
    key is absent, [file_other] tells whether the dictionary has further
    keys. *)
Record VideoFile : Type := mkFile {
  file_quality : option string;
  file_width : option Z;
  file_height : option Z;
  file_link : option string;
  file_other : bool
}.

Definition present {A} (x : option A) : bool :=
  match x with
  | Some _ => true
  | None => false
  end.

(** [bool(file)]: a dictionary is false exactly when it is empty. *)
Definition truthy (f : VideoFile) : bool :=
  present (file_quality f) || present (file_width f)
  || present (file_height f) || present (file_link f) || file_other f.

(** The sort key [x.get("width", 0) * x.get("height", 0)]. *)
Definition area (f : VideoFile) : Z :=
  default 0 (file_width f) * default 0 (file_height f).

(** [video_files.sort(key=area, reverse=True)]: descending, files of equal
    area keep their order. *)
Fixpoint insert_by_area (x : VideoFile) (l : list VideoFile) : list VideoFile :=
  match l with
  | [] => [x]
  | y :: l' =>
      if area y <=? area x then x :: y :: l' else y :: insert_by_area x l'
  end.

Definition sort_by_area (l : list VideoFile) : list VideoFile :=
  fold_right insert_by_area [] l.

(** The file [download_video] settles on: the first one of the requested
    quality, if it is a non-empty dictionary, else the head of the files
    sorted by area. *)
Definition target_file (quality : option string) (video_files : list VideoFile)
    : Py.result VideoFile :=
  let target :=
    List.find (fun file => bool_decide (file_quality file = quality))
              video_files in
  match target with
  | Some file => if truthy file then Ok file
                 else Py.index (sort_by_area video_files) 0
  | None => Py.index (sort_by_area video_files) 0
  end.

(** [str(video_id)]. *)
Definition str_id (video_id : option Z) : string :=
  match video_id with
  | Some i => pretty i
  | None => "None"
  end.

Section Client.

(** The network and the disk: [api.search_videos(...)] read at ["videos"]
    ([None] when the key is absent), [api.get_video(id)] read at
    ["video_files"] with its default [[]], [random]'s [_randbelow],
    [os.makedirs], the extension [os.path.splitext(urlparse(url).path)[1]] of
    a link, and [utils.download_file]. *)
Variable search_videos :
  string -> option string -> option string -> Py.result (option (list Video)).
Variable get_video : option Z -> Py.result (list VideoFile).
Variable randbelow : nat -> nat.
Variable makedirs : string -> Py.result unit.
Variable url_extension : string -> string.
Variable download_file : string -> string -> string -> Py.result (option string).

(** [video["id"]]. *)
Definition id_of (v : Video) : Py.result Z :=
  match video_id v with
  | Some i => Ok i
  | None => Raise Py.KeyError
  end.

(** [[video for video in videos if video.get("duration") >= duration]]:
    comparing [None] with a number raises [TypeError]. *)
Fixpoint long_enough (duration : Z) (videos : list Video)
    : Py.result (list Video) :=
  match videos with
  | [] => Ok []
  | video :: rest =>
      match video_duration video with
      | None => Raise Py.TypeError
      | Some d =>
          rest' ← long_enough duration rest;
          Ok (if duration <=? d then video :: rest' else rest')
      end
  end.

(** [random.choice(videos)]. *)
Definition choice (videos : list Video) : Py.result Video :=
  Py.index videos (Z.of_nat (randbelow (length videos))).

Definition select_video (query : string) (orientation size : option string)
    (selection_method : string) (offset duration : option Z)
    : Py.result (option Z) :=
  results ← search_videos query orientation size;
  match results with
  | None | Some [] => Ok None
  | Some videos =>
      videos ← match duration with
               | Some d => long_enough d videos
               | None => Ok videos
               end;
      if (length videos =? 0)%nat then Raise Py.ValueError
      else if String.eqb selection_method "best" then
        v ← Py.index videos 0; i ← id_of v; Ok (Some i)
      else if String.eqb selection_method "random" then
        v ← choice videos; i ← id_of v; Ok (Some i)
      else if String.eqb selection_method "offset" then
        match offset with
        | None => Raise Py.ValueError
        | Some o =>
            if Z.of_nat (length videos) <=? o then Ok None
            else v ← Py.index videos o; i ← id_of v; Ok (Some i)
        end
      else Raise Py.ValueError
  end.

(** The body of the [try] block of [download_video]. *)
Definition download_body (video_id : option Z) (quality : option string)
    (output_dir : string) : Py.result string :=
  video_files ← get_video video_id;
  target ← target_file quality video_files;
  _ ← makedirs output_dir;
  video_url ← match file_link target with
              | Some link => Ok link
              | None => Raise Py.KeyError
              end;
  let file_extension :=
    match url_extension video_url with
    | EmptyString => ".mp4"
    | ext => ext
    end in
  let output_filename := "pexels_video_" +:+ str_id video_id +:+ file_extension in
  let output_path := Os.path_join output_dir output_filename in
  _ ← download_file video_url output_dir output_filename;
  Ok output_path.

(** Any exception of the body is printed and turned into [None]. *)
Definition download_video (video_id : option Z) (quality : option string)
    (output_dir : string) : option string :=
  match download_body video_id quality output_dir with
  | Ok path => Some path
  | Raise _ => None
  end.

Definition download_video_by_id (video_id : option Z) (quality : option string)
    (output_dir : string) : option string :=
  download_video video_id quality output_dir.

(** The requested [size] is passed on as the [quality] to download. *)
Definition select_and_download_video (query : string)
    (orientation size : option string) (selection_method output_dir : string)
    (duration offset : option Z) : Py.result (option string) :=
  video_id ← select_video query orientation size selection_method offset duration;
  Ok (download_video_by_id video_id size output_dir).

End Client.

End Pexels.

(* ===================================================================== *)
(** ** Audio files ([utils.py]) *)
(* ===================================================================== *)

Module Audio.

Import Timeline.

(** [s.split(sep)] for a one-character separator: [cur] is the part being
    read.  The result is never empty. *)
Fixpoint split_on (sep : ascii) (s : string) (cur : string) : list string :=
  match s with
  | EmptyString => [cur]
  | String c s' =>
      if Ascii.eqb c sep then cur :: split_on sep s' EmptyString
      else split_on sep s' (cur +:+ String c EmptyString)
  end.

(** [os.path.basename(p)]: what follows the last slash. *)
Definition basename (p : string) : string :=
  default EmptyString (last (split_on "/" p EmptyString)).

(** [sep.join(parts)]. *)
Fixpoint join (sep : string) (parts : list string) : string :=
  match parts with
  | [] => EmptyString
  | [p] => p
  | p :: rest => p +:+ sep +:+ join sep rest
  end.

(** The directory and the file path [get_audio_file_paths] derives from a
    URL. *)
Definition audio_paths (url : string) : Py.result (string * string) :=
  let url_parts := split_on "/" url EmptyString in
  d ← (if (2 <=? length url_parts)%nat then Py.index url_parts (-2)
       else Ok (basename url));
  let directory_path := Os.path_join "temp/audio" d in
  file_name ← Py.index url_parts (-1);
  Ok (directory_path, Os.path_join directory_path file_name).

(** [audio_files.sort()] on paths and [None]s: comparing [None] with
    anything raises [TypeError], and a list of two or more is always
    compared. *)
Definition all_paths (audio_files : list (option string)) : option (list string) :=
  mapM id audio_files.

Definition sort_files (audio_files : list (option string))
    : Py.result (list (option string)) :=
  match all_paths audio_files with
  | Some paths => Ok (Some <$> merge_sort String.le paths)
  | None =>
      if (2 <=? length audio_files)%nat then Raise Py.TypeError
      else Ok audio_files
  end.

(** [' '.join(audio_files)]: an item that is not a string raises
    [TypeError]. *)
Definition join_files (audio_files : list (option string)) : Py.result string :=
  match all_paths audio_files with
  | Some paths => Ok (join " " paths)
  | None => Raise Py.TypeError
  end.

(** The files the concatenation loop reads, in its order: sort, join with
    blanks, split on blanks. *)
Definition reading_order (audio_files : list (option string))
    : Py.result (list string) :=
  sorted ← sort_files audio_files;
  joined ← join_files sorted;
  Ok (Py.split joined).

Section Files.

(** The disk and the audio library: the state of the file system,
    [os.path.exists], [os.makedirs(d, exist_ok=True)],
    [download_file(url, directory)] (a path, or [None] when the download
    failed), and [AudioSegment]'s [empty()], [+], [from_mp3] and
    [export]. *)
Variable FS : Type.
Variable path_exists : FS -> string -> bool.
Variable makedirs : string -> FS -> Py.result FS.
Variable download_file : string -> string -> FS -> Py.result (option string * FS).
Variable Sound : Type.
Variable empty : Sound.
Variable add : Sound -> Sound -> Sound.
Variable from_mp3 : string -> FS -> Py.result Sound.
Variable export : Sound -> string -> FS -> Py.result FS.

(** The body of [for url in urls]. *)
Definition audio_file (url : string) (fs : FS) : Py.result (option string * FS) :=
  p ← audio_paths url;
  if negb (path_exists fs p.2) then
    fs' ← makedirs p.1 fs;
    download_file url p.1 fs'
  else Ok (Some p.2, fs).

Fixpoint audio_files_loop (urls : list string) (fs : FS)
    (audio_files : list (option string))
    : Py.result (list (option string) * FS) :=
  match urls with
  | [] => Ok (audio_files, fs)
  | url :: rest =>
      r ← audio_file url fs;
      audio_files_loop rest r.2 (audio_files ++ [r.1])
  end.

Definition get_audio_file_paths (urls : list string) (fs : FS)
    : Py.result (list (option string) * FS) :=
  audio_files_loop urls fs [].

(** [for audio_file in audio_files.split(): combined += from_mp3(...)]. *)
Fixpoint read_all (files : list string) (fs : FS) (combined : Sound)
    : Py.result Sound :=
  match files with
  | [] => Ok combined
  | audio_file :: rest =>
      sound ← from_mp3 audio_file fs;
      read_all rest fs (add combined sound)
  end.

(** [get_words_with_timestamps] with the audio work that follows the verse
    loop: it returns the records and leaves the combined audio on disk. *)
Definition get_words_and_audio
    (quran_data : option (gmap Z (gmap Z string)))
    (timestamp_data : option (gmap (Z * Z) TimestampEntry))
    (translation_data : option (gmap (Z * Z * Z) string))
    (surah_number aya_start aya_end : Z) (fs : FS)
    : Py.result (list WordInfo * FS) :=
  match quran_data, timestamp_data, translation_data with
  | Some q, Some t, Some tr =>
      st ← verse_loop q t tr surah_number
             (Py.range aya_start (aya_end + 1)) initial;
      r ← get_audio_file_paths (audio_urls st) fs;
      files ← reading_order r.1;
      let output_file := Os.path_join "temp/audio" "combined_audio.mp3" in
      combined ← read_all files r.2 empty;
      fs' ← export combined output_file r.2;
      Ok (result st, fs')
  | _, _, _ => Ok ([], fs)
  end.

End Files.

(** A string a blank-separated list keeps whole: not empty, and made of
    ASCII characters none of which is a blank. *)
Definition unbroken (s : string) : Prop :=
  s <> EmptyString /\
  Xml.all_chars (fun c => negb (Py.is_space c) && (nat_of_ascii c <? 128)%nat) s
  = true.

End Audio.

(* ===================================================================== *)
(** ** More sample data *)
(* ===================================================================== *)

Module SampleMore.

Import Timeline.

Local Open Scope Q_scope.

(** Verse 7 has an empty text and a null duration; verse 6 is in no
    store. *)
Definition quran_blank : gmap Z (gmap Z string) :=
  {[ 1%Z := {[ 7%Z := ""; 8%Z := "k" ]} ]}.

Definition timestamps_blank : gmap (Z * Z) TimestampEntry :=
  {[ (1, 7)%Z := mkEntry [mkSegment 1 0 1] "u7" None;
     (1, 8)%Z := mkEntry [mkSegment 1 0 1] "u8" (Some 1) ]}.

Definition translations_blank : gmap (Z * Z * Z) string :=
  {[ (1, 7, 1)%Z := "X"; (1, 8, 1)%Z := "K" ]}.


(** Search results, video files and stand-ins for the network and the disk
    of the footage client. *)
Definition videos : list Pexels.Video :=
  [Pexels.mkVideo (Some 11%Z) (Some 5%Z);
   Pexels.mkVideo (Some 12%Z) (Some 20%Z);
   Pexels.mkVideo (Some 13%Z) (Some 30%Z)].

Definition videos_undated : list Pexels.Video :=
  [Pexels.mkVideo (Some 11%Z) (Some 5%Z); Pexels.mkVideo (Some 12%Z) None].

Definition search (found : list Pexels.Video) (query : string)
    (orientation size : option string)
    : Py.result (option (list Pexels.Video)) :=
  Ok (Some found).

Definition file_sd : Pexels.VideoFile :=
  Pexels.mkFile (Some "sd"%string) (Some 640%Z) (Some 360%Z)
    (Some "https://v/640.mp4"%string) false.

Definition file_hd : Pexels.VideoFile :=
  Pexels.mkFile (Some "hd"%string) (Some 1920%Z) (Some 1080%Z)
    (Some "https://v/1920"%string) false.

Definition file_hd_small : Pexels.VideoFile :=
  Pexels.mkFile (Some "hd"%string) (Some 1280%Z) (Some 720%Z)
    (Some "https://v/1280.mp4"%string) false.

Definition get_video (video_id : option Z) : Py.result (list Pexels.VideoFile) :=
  Ok [file_sd; file_hd; file_hd_small].

Definition randbelow (n : nat) : nat := Nat.pred n.

Definition makedirs (directory : string) : Py.result unit := Ok tt.

Definition url_extension (url : string) : string := "".

Definition download_fails (url directory filename : string)
    : Py.result (option string) :=
  Ok None.

(** A disk as the list of its files, a sound as the list of the files it
    was read from; one download stand-in that always fails and one that
    always succeeds. *)
Definition on_disk (fs : list string) (path : string) : bool :=
  bool_decide (path ∈ fs).

Definition make (directory : string) (fs : list string)
    : Py.result (list string) :=
  Ok fs.

Definition fetch_fails (url directory : string) (fs : list string)
    : Py.result (option string * list string) :=
  Ok (None, fs).

Definition fetch (url directory : string) (fs : list string)
    : Py.result (option string * list string) :=
  let path := Os.path_join directory (Audio.basename url) in
  Ok (Some path, path :: fs).

Definition read (path : string) (fs : list string) : Py.result (list string) :=
  Ok [path].

Definition write (sound : list string) (path : string) (fs : list string)
    : Py.result (list string) :=
  Ok (path :: fs).

End SampleMore.

(* ===================================================================== *)
(** * Properties *)
(* ===================================================================== *)
Module PyFacts.

Lemma bind_Ok {A B} (a : A) (k : A -> Py.result B) : (Ok a ≫= k) = k a.
Proof. reflexivity. Qed.

Lemma bind_Raise {A B} (e : Py.exn) (k : A -> Py.result B) :
  (Raise e ≫= k) = Raise e.
Proof. reflexivity. Qed.

End PyFacts.

Module TimelineFacts.

Import PyFacts.

Import Timeline TimelineSpec.

(** *** Python indexing *)

Lemma index_last {A} (l : list A) :
  Py.index l (-1) = match last l with Some a => Ok a | None => Raise Py.IndexError end.
Proof.
  unfold Py.index. cbn [Z.ltb Z.compare].
  destruct (decide (l = [])) as [->|Hne]; [reflexivity|].
  assert (Hlen : (0 < length l)%nat) by (destruct l; [done | simpl; lia]).
  replace ((0 <=? -1 + Z.of_nat (length l)) && (-1 + Z.of_nat (length l) <? Z.of_nat (length l)))
    with true by (symmetry; apply andb_true_intro; split; [apply Z.leb_le | apply Z.ltb_lt]; lia).
  replace (Z.to_nat (-1 + Z.of_nat (length l))) with (pred (length l)) by lia.
  rewrite last_lookup.
  
  destruct (l !! pred (length l)) eqn:E; [reflexivity|].
  apply lookup_ge_None in E. lia.
Qed.

Lemma index_in_range {A} (l : list A) (i : Z) :
  0 <= i < Z.of_nat (length l) ->
  exists a, Py.index l i = Ok a /\ l !! Z.to_nat i = Some a.
Proof.
  intros Hi. unfold Py.index.
  replace (i <? 0) with false by (symmetry; apply Z.ltb_ge; lia).
  replace ((0 <=? i) && (i <? Z.of_nat (length l))) with true
    by (symmetry; apply andb_true_intro; split; [apply Z.leb_le | apply Z.ltb_lt]; lia).
  
  destruct (l !! Z.to_nat i) eqn:E; [eauto|].
  apply lookup_ge_None in E. lia.
Qed.

(** The lookup [l[i]] succeeds exactly on [-len(l) <= i < len(l)]. *)
Lemma index_ok_iff {A} (l : list A) (i : Z) :
  (exists a, Py.index l i = Ok a) <->
  - Z.of_nat (length l) <= i < Z.of_nat (length l).
Proof.
  unfold Py.index. set (n := Z.of_nat (length l)).
  destruct (i <? 0) eqn:Hneg; [apply Z.ltb_lt in Hneg | apply Z.ltb_ge in Hneg].
  - destruct ((0 <=? i + n) && (i + n <? n)) eqn:Hb.
    + apply andb_prop in Hb as [H1 H2]. apply Z.leb_le in H1. apply Z.ltb_lt in H2.
      
      destruct (l !! Z.to_nat (i + n)) eqn:E.
      * split; [lia | eauto].
      * apply lookup_ge_None in E. lia.
    + split; [intros [a Ha]; discriminate|].
      intros H. apply andb_false_iff in Hb as [Hb|Hb];
        [apply Z.leb_gt in Hb | apply Z.ltb_ge in Hb]; lia.
  - destruct ((0 <=? i) && (i <? n)) eqn:Hb.
    + apply andb_prop in Hb as [H1 H2]. apply Z.leb_le in H1. apply Z.ltb_lt in H2.
      
      destruct (l !! Z.to_nat i) eqn:E.
      * split; [lia | eauto].
      * apply lookup_ge_None in E. lia.
    + split; [intros [a Ha]; discriminate|].
      intros H. apply andb_false_iff in Hb as [Hb|Hb];
        [apply Z.leb_gt in Hb | apply Z.ltb_ge in Hb]; lia.
Qed.


(** *** Ordered intervals *)

Lemma between_bounds lo hi l : between lo hi l -> (lo <= hi)%Q.
Proof.
  revert lo. induction l as [|[s e] l IH]; simpl; intros lo H; [exact H|].
  destruct H as (H1 & H2 & H3). apply IH in H3. lra.
Qed.

Lemma between_weaken lo lo' hi hi' l :
  (lo' <= lo)%Q -> (hi <= hi')%Q -> between lo hi l -> between lo' hi' l.
Proof.
  revert lo lo'. induction l as [|[s e] l IH]; simpl; intros lo lo' Hlo Hhi H.
  - lra.
  - destruct H as (H1 & H2 & H3). repeat split; [lra | lra |].
    apply (IH e e); [lra | exact Hhi | exact H3].
Qed.

Lemma between_app lo mid hi l1 l2 :
  between lo mid l1 -> between mid hi l2 -> between lo hi (l1 ++ l2).
Proof.
  revert lo. induction l1 as [|[s e] l1 IH]; simpl; intros lo H1 H2.
  - apply (between_weaken mid lo hi hi); [exact H1 | lra | exact H2].
  - destruct H1 as (Ha & Hb & Hc). repeat split; auto.
Qed.

Lemma between_take lo hi l k : between lo hi l -> between lo hi (take k l).
Proof.
  revert lo k. induction l as [|[s e] l IH]; intros lo k H.
  - destruct k; exact H.
  - destruct k; simpl.
    + apply (between_bounds lo hi ((s, e) :: l)); exact H.
    + destruct H as (Ha & Hb & Hc). repeat split; auto.
Qed.

Lemma between_last lo hi l p :
  between lo hi l -> last l = Some p -> (lo <= p.2)%Q /\ (p.2 <= hi)%Q.
Proof.
  revert lo. induction l as [|[s e] l IH]; intros lo H Hl; [discriminate|].
  destruct H as (Ha & Hb & Hc). destruct l as [|q l].
  - injection Hl as <-. simpl in *. split; lra.
  - apply (IH e) in Hc; [|exact Hl]. split; lra.
Qed.

(** Shrinking the upper bound to the end of the last interval. *)
Lemma between_tight lo hi l p :
  between lo hi l -> last l = Some p -> between lo p.2 l.
Proof.
  revert lo. induction l as [|[s e] l IH]; intros lo H Hl; [discriminate|].
  destruct H as (Ha & Hb & Hc). destruct l as [|q l].
  - injection Hl as <-. simpl in *. repeat split; lra.
  - repeat split; auto.
Qed.

Lemma between_shift lo hi off l :
  between lo hi l ->
  between (lo + off) (hi + off) ((fun p => (p.1 + off, p.2 + off)%Q) <$> l).
Proof.
  revert lo. induction l as [|[s e] l IH]; simpl; intros lo H.
  - lra.
  - destruct H as (Ha & Hb & Hc). repeat split; [lra | lra | auto].
Qed.

Lemma between_adjacent lo hi l i p q :
  between lo hi l -> l !! i = Some p -> l !! S i = Some q -> (p.2 <= q.1)%Q.
Proof.
  revert lo i. induction l as [|[s e] l IH]; intros lo i H Hp Hq; [discriminate|].
  destruct H as (Ha & Hb & Hc). destruct i as [|i].
  - injection Hp as <-. destruct l as [|[s' e'] l]; [discriminate|].
    injection Hq as <-. simpl in *. lra.
  - exact (IH e i Hc Hp Hq).
Qed.

Lemma between_monotonic hi (l : list WordInfo) :
  between 0 hi (times <$> l) -> monotonic l.
Proof.
  intros H i a b Ha Hb.
  apply (between_adjacent 0 hi (times <$> l) i (times a) (times b) H);
    rewrite list_lookup_fmap; [rewrite Ha | rewrite Hb]; reflexivity.
Qed.


(** *** The inner loop *)

Section Loop.

Variable quran_data : gmap Z (gmap Z string).
Variable timestamp_data : gmap (Z * Z) TimestampEntry.
Variable translation_data : gmap (Z * Z * Z) string.
Variable surah_number : Z.

Abbreviation word_info := (word_info translation_data surah_number).
Abbreviation match_words := (match_words translation_data surah_number).
Abbreviation process_aya :=
  (process_aya quran_data timestamp_data translation_data surah_number).
Abbreviation verse_loop :=
  (verse_loop quran_data timestamp_data translation_data surah_number).

Lemma word_info_ok aya_number words off s w :
  word_info aya_number words off s = Ok w <->
  Py.index words (seg_position s - 1) = Ok (word w) /\
  translation_data !! (surah_number, aya_number, seg_position s)
    = Some (translation w) /\
  emitted surah_number aya_number off s w.
Proof.
  unfold Timeline.word_info, emitted, Py.getitem. cbn [mbind result_bind Py.bind].
  destruct (Py.index words (seg_position s - 1)) as [x|]; cbn [Py.bind].
  - destruct (translation_data !! (surah_number, aya_number, seg_position s))
      as [t|]; cbn [Py.bind].
    + split.
      * intros [= <-]. simpl. auto 10.
      * intros ([= ->] & [= ->] & H1 & H2 & H3 & H4 & H5). destruct w; simpl in *.
        congruence.
    + split; [discriminate | intros (_ & H & _); discriminate].
  - split; [discriminate | intros (H & _); discriminate].
Qed.

(** The loop appends to [res] one record for each of the first
    [len(words) - i] segments, and fails where one of their records fails. *)
Lemma match_words_ok aya_number words off segs : forall i res res',
  match_words aya_number words off i segs res = Ok res' <->
  exists recs,
    res' = res ++ recs /\
    Forall2 (fun s w => word_info aya_number words off s = Ok w)
            (take (length words - i) segs) recs.
Proof.
  induction segs as [|s segs IH]; intros i res res'; cbn [Timeline.match_words].
  - rewrite take_nil. split.
    + intros [= <-]. exists []. rewrite app_nil_r. auto.
    + intros (recs & -> & H). inversion H. rewrite app_nil_r. reflexivity.
  - destruct (length words <=? i)%nat eqn:Hi.
    + apply Nat.leb_le in Hi. replace (length words - i)%nat with 0%nat by lia.
      simpl. split.
      * intros [= <-]. exists []. rewrite app_nil_r. auto.
      * intros (recs & -> & H). inversion H. rewrite app_nil_r. reflexivity.
    + apply Nat.leb_gt in Hi.
      replace (length words - i)%nat with (S (length words - S i)) by lia.
      cbn [take].
      destruct (word_info aya_number words off s) as [w|e] eqn:Hw.
      * rewrite bind_Ok, IH. split.
        -- intros (recs & -> & H). exists (w :: recs). split.
           ++ rewrite <- app_assoc. reflexivity.
           ++ constructor; assumption.
        -- intros (recs & -> & H). inversion H as [|? w' ? recs' Hw' Hrest]; subst.
           rewrite Hw in Hw'. injection Hw' as <-. exists recs'. split.
           ++ rewrite <- app_assoc. reflexivity.
           ++ exact Hrest.
      * rewrite bind_Raise. split; [discriminate|].
        intros (recs & _ & H). inversion H as [|? w' ? recs' Hw' Hrest]; subst.
        rewrite Hw in Hw'. discriminate.
Qed.


(** *** One verse *)

Lemma process_aya_skip_text st aya_number :
  quran_data !! surah_number ≫= (.!! aya_number) = None ->
  process_aya st aya_number = Ok st.
Proof.
  intros H. unfold Timeline.process_aya, aya_text, Py.getitem.
  destruct (quran_data !! surah_number) as [verses|]; simpl in *; [|reflexivity].
  rewrite H. reflexivity.
Qed.

Lemma process_aya_skip_timestamps st aya_number :
  timestamp_data !! (surah_number, aya_number) = None ->
  process_aya st aya_number = Ok st.
Proof.
  intros H. unfold Timeline.process_aya, Py.getitem. rewrite H.
  destruct (aya_text quran_data surah_number aya_number); reflexivity.
Qed.

Lemma process_aya_found st st' aya_number text entry :
  quran_data !! surah_number ≫= (.!! aya_number) = Some text ->
  timestamp_data !! (surah_number, aya_number) = Some entry ->
  process_aya st aya_number = Ok st' <->
  verse_step translation_data surah_number st st' aya_number
             (Py.split text) entry.
Proof.
  intros Htext Hentry. unfold Timeline.process_aya, verse_step.
  assert (aya_text quran_data surah_number aya_number = Ok text) as ->.
  { unfold aya_text, Py.getitem.
    destruct (quran_data !! surah_number) as [verses|]; simpl in *; [|discriminate].
    rewrite Htext. reflexivity. }
  unfold Py.getitem at 1. rewrite Hentry.
  destruct (match_words _ _ _ 0%nat (segments entry) (result st)) as [res'|e] eqn:Hm.
  - rewrite bind_Ok. apply match_words_ok in Hm as (recs & -> & Hrecs).
    rewrite Nat.sub_0_r in Hrecs.
    assert (Huniq : forall recs',
      Forall2 (fun s w => word_info aya_number (Py.split text) (offset st) s = Ok w)
              (take (length (Py.split text)) (segments entry)) recs' -> recs' = recs).
    { clear -Hrecs. revert Hrecs. generalize (take (length (Py.split text)) (segments entry)).
      intros l H. induction H as [|s w l recs Hw _ IH]; intros recs' H'.
      - inversion H'. reflexivity.
      - inversion H' as [|? w' ? recs'' Hw' Hrest]; subst.
        rewrite Hw in Hw'. injection Hw' as <-. f_equal. auto. }
    destruct (duration entry) as [d|].
    + rewrite bind_Ok. split.
      * intros [= <-]. exists recs, d. auto.
      * intros (recs' & adv & H1 & -> & ->). rewrite (Huniq _ H1). reflexivity.
    + unfold last_end. rewrite index_last.
      destruct (last (result st ++ recs)) as [w|] eqn:Hl.
      * rewrite !bind_Ok. split.
        -- intros [= <-]. exists recs, (end_ w). eauto.
        -- intros (recs' & adv & H1 & (w' & Hw' & ->) & ->).
           rewrite (Huniq _ H1) in *. rewrite Hl in Hw'. injection Hw' as <-.
           reflexivity.
      * rewrite !bind_Raise. split; [discriminate|].
        intros (recs' & adv & H1 & (w' & Hw' & ->) & ->).
        rewrite (Huniq _ H1) in *. rewrite Hl in Hw'. discriminate.
  - rewrite bind_Raise. split; [discriminate|].
    intros (recs & adv & H1 & _ & _).
    assert (match_words aya_number (Py.split text) (offset st) 0%nat
              (segments entry) (result st) = Ok (result st ++ recs)) as Hok.
    { apply match_words_ok. exists recs. rewrite Nat.sub_0_r. auto. }
    rewrite Hm in Hok. discriminate.
Qed.

(** The times of the emitted records are the local times shifted by the
    offset. *)
Lemma emitted_times aya_number words off segs recs :
  Forall2 (fun s w => word_info aya_number words off s = Ok w) segs recs ->
  times <$> recs = (fun p => (p.1 + off, p.2 + off)%Q) <$> (span <$> segs).
Proof.
  induction 1 as [|s w segs recs Hw _ IH]; [reflexivity|].
  rewrite !fmap_cons, IH. f_equal.
  apply word_info_ok in Hw as (_ & _ & _ & _ & _ & Hs & He).
  unfold times, span. simpl. rewrite Hs, He. reflexivity.
Qed.

Hypothesis valid_store :
  forall key entry, timestamp_data !! key = Some entry -> valid_entry entry.

Lemma process_aya_in_order st st' aya_number :
  in_order st -> process_aya st aya_number = Ok st' -> in_order st'.
Proof.
  intros Hinv Hstep.
  destruct (quran_data !! surah_number ≫= (.!! aya_number)) as [text|] eqn:Htext;
    [|rewrite process_aya_skip_text in Hstep by assumption; congruence].
  destruct (timestamp_data !! (surah_number, aya_number)) as [entry|] eqn:Hentry;
    [|rewrite process_aya_skip_timestamps in Hstep by assumption; congruence].
  destruct (proj1 (process_aya_found _ _ _ _ _ Htext Hentry) Hstep)
    as (recs & adv & Hrecs & Hadv & ->).
  destruct (valid_store _ _ Hentry) as [Hsegs Hdur].
  set (hi := last_local_end 0 (segments entry)) in *.
  unfold in_order in *. simpl.
  pose proof (between_bounds _ _ _ Hinv) as Hoff.
  assert (Hnew : between (offset st) (hi + offset st) (times <$> recs)).
  { rewrite (emitted_times _ _ _ _ _ Hrecs), fmap_take.
    apply (between_weaken (0 + offset st) _ (hi + offset st)); [lra | lra |].
    apply between_shift, between_take, Hsegs. }
  assert (Hall : between 0 (hi + offset st) (times <$> (result st ++ recs))).
  { rewrite fmap_app. eapply between_app; eassumption. }
  destruct (duration entry) as [d|].
  - subst adv. specialize (Hdur d eq_refl).
    eapply between_weaken; [| |exact Hall]; lra.
  - destruct Hadv as (w & Hw & ->).
    assert (Hlast : last (times <$> (result st ++ recs)) = Some (times w)).
    { rewrite fmap_last, Hw. reflexivity. }
    pose proof (between_last _ _ _ _ Hall Hlast) as [Hw0 _].
    pose proof (between_tight _ _ _ _ Hall Hlast) as Ht.
    eapply between_weaken; [| |exact Ht]; simpl in *; lra.
Qed.

Lemma verse_loop_in_order ayas : forall st st',
  in_order st -> verse_loop ayas st = Ok st' -> in_order st'.
Proof.
  induction ayas as [|a ayas IH]; intros st st' Hinv Hrun; simpl in Hrun.
  - injection Hrun as <-. exact Hinv.
  - destruct (process_aya st a) as [st1|e] eqn:Hstep.
    + rewrite bind_Ok in Hrun. eapply IH; [|exact Hrun].
      eapply process_aya_in_order; eassumption.
    + rewrite bind_Raise in Hrun. discriminate.
Qed.

End Loop.

End TimelineFacts.

(** *** Claims about the timeline builder *)

Module TimelineClaims.

Import PyFacts Timeline TimelineSpec TimelineFacts.

Lemma range_elem a b x : In x (Py.range a b) -> a <= x < b.
Proof.
  unfold Py.range. rewrite in_map_iff. intros (k & <- & Hk).
  apply in_seq in Hk. lia.
Qed.

(** C2. For every input whose verses list their local segments in
    increasing, non-overlapping order on a zero-based clock, with any
    declared duration at least the last local end time, the records returned
    by [get_words_with_timestamps] are time-monotonic: each record ends no
    later than the next one starts, across verse boundaries too. *)
Theorem timeline_monotonic
    (quran_data : option (gmap Z (gmap Z string)))
    (timestamp_data : option (gmap (Z * Z) TimestampEntry))
    (translation_data : option (gmap (Z * Z * Z) string))
    (surah_number aya_start aya_end : Z) (words : list WordInfo) :
  (forall t key entry,
     timestamp_data = Some t -> t !! key = Some entry -> valid_entry entry) ->
  get_words_with_timestamps quran_data timestamp_data translation_data
    surah_number aya_start aya_end = Ok words ->
  monotonic words.
Proof.
  intros Hvalid Hrun. unfold get_words_with_timestamps in Hrun.
  destruct quran_data as [q|], timestamp_data as [t|], translation_data as [tr|];
    try (injection Hrun as <-; intros i a b Ha; discriminate).
  destruct (verse_loop q t tr surah_number _ initial) as [st|e] eqn:Hloop;
    [rewrite bind_Ok in Hrun | rewrite bind_Raise in Hrun; discriminate].
  injection Hrun as <-.
  apply (between_monotonic (offset st)).
  eapply (verse_loop_in_order q t tr surah_number); [| |exact Hloop].
  - intros key entry H. exact (Hvalid t key entry eq_refl H).
  - unfold in_order. simpl. lra.
Qed.


Lemma sample_timestamps_valid key entry :
  Sample.timestamps !! key = Some entry -> valid_entry entry.
Proof.
  unfold Sample.timestamps. intros H.
  repeat (apply lookup_insert_Some in H as [[_ <-]|[_ H]];
          [split; [simpl; repeat split; lra | intros d [= <-]; simpl; lra]|]).
  apply lookup_singleton_Some in H as [_ <-].
  split; [simpl; repeat split; lra | intros d [= <-]; simpl; lra].
Defined.

Lemma timeline_monotonic_witness :
  exists words,
    get_words_with_timestamps (Some Sample.quran) (Some Sample.timestamps)
      (Some Sample.translations) 1 1 4 = Ok words /\
    length words = 7%nat /\ monotonic words.
Proof.
  eexists. split; [vm_compute; reflexivity|]. split; [reflexivity|].
  apply (timeline_monotonic (Some Sample.quran) (Some Sample.timestamps)
           (Some Sample.translations) 1 1 4).
  - intros t key entry [= <-]. apply sample_timestamps_valid.
  - vm_compute. reflexivity.
Defined.


(** C3. A verse missing from the timestamp store is skipped and the other
    verses are returned, but a verse whose word has no entry in the
    translation store makes [get_words_with_timestamps] raise [KeyError]:
    the translation lookup is not guarded as the other two are. *)
Theorem missing_translation_raises :
  get_words_with_timestamps (Some Sample.quran)
    (Some Sample.timestamps) (Some Sample.translations_without_2) 1 1 3
  = Raise Py.KeyError /\
  exists a b f,
    get_words_with_timestamps (Some Sample.quran)
      (Some Sample.timestamps_without_2) (Some Sample.translations) 1 1 3
    = Ok [a; b; f] /\
    aya a = 1 /\ aya b = 1 /\ aya f = 3.
Proof.
  split; [vm_compute; reflexivity|].
  do 3 eexists. split; [vm_compute; reflexivity|].
  repeat split.
Qed.

Section Refinement.

Variable quran_data : gmap Z (gmap Z string).
Variable timestamp_data : gmap (Z * Z) TimestampEntry.
Variable translation_data : gmap (Z * Z * Z) string.
Variable surah_number : Z.

Abbreviation regular :=
  (regular quran_data timestamp_data translation_data surah_number).
Abbreviation spec_timeline :=
  (spec_timeline quran_data timestamp_data translation_data surah_number).
Abbreviation spec_record :=
  (spec_record quran_data translation_data surah_number).
Abbreviation spec_segments := (spec_segments timestamp_data surah_number).
Abbreviation spec_advance := (spec_advance timestamp_data surah_number).

(** On a regular verse the loop body does what the description says. *)
Lemma process_aya_regular st aya_number :
  regular aya_number ->
  let records := spec_record aya_number (offset st) <$> spec_segments aya_number in
  exists st',
    process_aya quran_data timestamp_data translation_data surah_number
      st aya_number = Ok st' /\
    result st' = result st ++ records /\
    offset st' = (offset st + spec_advance aya_number records)%Q.
Proof.
  intros ([text Htext] & [entry Hentry] & Hlen & Hsegs & Hdur) records.
  unfold TimelineSpec.spec_words in Hlen, Hsegs.
  unfold TimelineSpec.spec_segments in Hlen, Hsegs, Hdur.
  unfold TimelineSpec.spec_duration in Hdur.
  assert (Hrec : records = TimelineSpec.spec_record quran_data translation_data
                   surah_number aya_number (offset st) <$> segments entry).
  { unfold records, TimelineSpec.spec_segments. rewrite Hentry. reflexivity. }
  rewrite Htext in Hlen, Hsegs. rewrite Hentry in Hlen, Hsegs, Hdur. simpl in Hdur.
  eexists. split.
  - apply (process_aya_found _ _ _ _ _ _ _ _ _ Htext Hentry).
    exists records, (spec_advance aya_number records). split; [|split; [|reflexivity]].
    + rewrite take_ge by exact Hlen. rewrite Hrec.
      clear -Hsegs Htext. induction Hsegs as [|s segs [Hpos [t Ht]] _ IH];
        [constructor|]. rewrite fmap_cons. constructor; [|exact IH].
      apply word_info_ok. unfold TimelineSpec.spec_record, emitted. simpl.
      unfold TimelineSpec.spec_words. rewrite Htext, Ht. simpl.
      split; [|auto 10].
      destruct (index_in_range (Py.split text) (seg_position s - 1)) as (w & -> & Hw);
        [lia|].
      f_equal. symmetry. apply nth_lookup_Some with (d := ""%string) in Hw. exact Hw.
    + unfold TimelineSpec.spec_advance, TimelineSpec.spec_duration.
      rewrite Hentry. simpl. destruct (duration entry) as [d|]; [reflexivity|].
      destruct (last records) as [w|] eqn:Hl.
      * exists w. split; [|reflexivity]. rewrite last_app, Hl. reflexivity.
      * apply last_None in Hl. rewrite Hrec in Hl. apply fmap_nil_inv in Hl.
        destruct (Hdur eq_refl). exact Hl.
  - simpl. auto.
Qed.

Lemma verse_loop_regular ayas : forall st,
  Forall regular ayas ->
  exists st',
    verse_loop quran_data timestamp_data translation_data surah_number ayas st
      = Ok st' /\
    result st' = result st ++ spec_timeline ayas (offset st).
Proof.
  induction ayas as [|a ayas IH]; intros st Hreg; simpl.
  - exists st. rewrite app_nil_r. auto.
  - inversion Hreg as [|? ? Ha Hrest]; subst.
    destruct (process_aya_regular st a Ha) as (st1 & -> & Hres & Hoff).
    rewrite bind_Ok. destruct (IH st1 Hrest) as (st' & -> & Hres').
    exists st'. split; [reflexivity|].
    rewrite Hres', Hres, Hoff, <- app_assoc. reflexivity.
Qed.

End Refinement.

(** C4. On every regular input, [get_words_with_timestamps] returns the
    timeline the description defines: a running offset starting at zero;
    for each verse in increasing order one record per segment, whose word is
    the split word at index [position - 1] and whose times are the local
    times plus the offset; after each verse the offset advanced by the
    declared duration when it is not null, and otherwise by the end time of
    the verse's last emitted record. *)
Theorem timeline_refines_description
    (quran_data : gmap Z (gmap Z string))
    (timestamp_data : gmap (Z * Z) TimestampEntry)
    (translation_data : gmap (Z * Z * Z) string)
    (surah_number aya_start aya_end : Z) :
  (forall aya_number, aya_start <= aya_number <= aya_end ->
     regular quran_data timestamp_data translation_data surah_number aya_number) ->
  get_words_with_timestamps (Some quran_data) (Some timestamp_data)
    (Some translation_data) surah_number aya_start aya_end
  = Ok (spec_timeline quran_data timestamp_data translation_data surah_number
          (Py.range aya_start (aya_end + 1)) 0).
Proof.
  intros Hreg. unfold get_words_with_timestamps.
  destruct (verse_loop_regular quran_data timestamp_data translation_data
              surah_number (Py.range aya_start (aya_end + 1)) initial)
    as (st & -> & Hres).
  - apply Forall_forall. intros a Ha. apply list_elem_of_In, range_elem in Ha.
    apply Hreg. lia.
  - rewrite bind_Ok, Hres. reflexivity.
Qed.


Lemma timeline_refines_description_witness :
  get_words_with_timestamps (Some Sample.quran) (Some Sample.timestamps)
    (Some Sample.translations) 1 1 2
  = Ok (spec_timeline Sample.quran Sample.timestamps Sample.translations 1
          (Py.range 1 (2 + 1)) 0).
Proof.
  apply (timeline_refines_description Sample.quran Sample.timestamps
           Sample.translations 1 1 2).
  intros aya_number Hrange.
  assert (aya_number = 1 \/ aya_number = 2) as [-> | ->] by lia.
  - repeat split; try (vm_compute; eauto; fail); try (vm_compute; lia).
    + repeat constructor; vm_compute; try discriminate; eauto.
    + vm_compute. discriminate.
  - repeat split; try (vm_compute; eauto; fail); try (vm_compute; lia).
    + repeat constructor; vm_compute; try discriminate; eauto.
    + vm_compute. discriminate.
Defined.





(** C10, as the code has it.  For a verse found in both stores, the lookup
    [words[segment[0] - 1]] is in bounds for every processed segment exactly
    when each processed word position lies between [1 - len(words)] and
    [len(words)] (Python resolves a zero or negative position from the end
    of the list), in particular when it lies between 1 and [len(words)]; the
    guard compares the enumeration index only, so a processed segment whose
    word position exceeds the word count makes the builder raise instead of
    truncating. *)
Theorem lookup_bounds
    (quran_data : gmap Z (gmap Z string))
    (timestamp_data : gmap (Z * Z) TimestampEntry)
    (translation_data : gmap (Z * Z * Z) string)
    (surah_number aya_number : Z) (st : LoopState)
    (text : string) (entry : TimestampEntry) :
  quran_data !! surah_number ≫= (.!! aya_number) = Some text ->
  timestamp_data !! (surah_number, aya_number) = Some entry ->
  (lookups_in_bounds (Py.split text) (segments entry) <->
   positions_indexable (Py.split text) (segments entry)) /\
  (positions_one_based (Py.split text) (segments entry) ->
   lookups_in_bounds (Py.split text) (segments entry)) /\
  (forall (i : nat) (s : Segment),
     segments entry !! i = Some s ->
     (i < length (Py.split text))%nat ->
     Z.of_nat (length (Py.split text)) < seg_position s ->
     exists e,
       process_aya quran_data timestamp_data translation_data surah_number
         st aya_number = Raise e).
Proof.
  intros Htext Hentry. set (words := Py.split text).
  assert (Hiff : lookups_in_bounds words (segments entry) <->
                 positions_indexable words (segments entry)).
  { unfold lookups_in_bounds, positions_indexable.
    split; intros HF; (eapply Forall_impl; [exact HF|]); intros s H.
    - apply index_ok_iff in H. cbv beta. lia.
    - cbv beta in H. apply index_ok_iff. lia. }
  split; [exact Hiff|]. split.
  - intros H. apply Hiff. unfold positions_one_based, positions_indexable in *.
    eapply Forall_impl; [exact H|]. intros s Hs. cbv beta in *. lia.
  - intros i s Hs Hi Hbig.
    destruct (process_aya quran_data timestamp_data translation_data
                surah_number st aya_number) as [st'|e] eqn:Hrun; [|eauto].
    exfalso.
    apply (process_aya_found _ _ _ _ _ _ _ _ _ Htext Hentry) in Hrun.
    destruct Hrun as (recs & adv & Hrecs & _).
    assert (Hti : take (length words) (segments entry) !! i = Some s).
    { rewrite lookup_take_lt by exact Hi. exact Hs. }
    destruct (Forall2_lookup_l _ _ _ _ _ Hrecs Hti) as (w & _ & Hw).
    apply word_info_ok in Hw as (Hidx & _).
    assert (exists a, Py.index words (seg_position s - 1) = Ok a) as Hok by eauto.
    apply index_ok_iff in Hok. lia.
Qed.

Lemma lookup_bounds_witness :
  (lookups_in_bounds (Py.split "i j") [mkSegment 1 0 1; mkSegment 3 1 2] <->
   positions_indexable (Py.split "i j") [mkSegment 1 0 1; mkSegment 3 1 2]) /\
  exists e,
    process_aya Sample.quran Sample.timestamps Sample.translations 1
      initial 5 = Raise e.
Proof.
  destruct (lookup_bounds Sample.quran Sample.timestamps Sample.translations
              1 5 initial "i j"
              (mkEntry [mkSegment 1 0 1; mkSegment 3 1 2] "u5" (Some 2%Q)))
    as (Hiff & _ & Hraise).
  - vm_compute. reflexivity.
  - vm_compute. reflexivity.
  - split; [exact Hiff|].
    apply (Hraise 1%nat (mkSegment 3 1 2)).
    + reflexivity.
    + vm_compute. lia.
    + vm_compute. reflexivity.
Defined.

(** C10 as stated fails: in verse 4 of the sample the only segment has word
    position 0, outside [1 .. len(words)], yet the lookup is in bounds and
    the builder returns the verse's last word. *)
Lemma lookup_bounds_counterexample :
  ~ (lookups_in_bounds (Py.split "g h") [mkSegment 0 0 1] <->
     positions_one_based (Py.split "g h") [mkSegment 0 0 1]) /\
  exists w,
    get_words_with_timestamps (Some Sample.quran) (Some Sample.timestamps)
      (Some Sample.translations) 1 4 4 = Ok [w] /\
    word w = "h"%string /\ word_position w = 0.
Proof.
  split.
  - intros [H _].
    assert (Hin : lookups_in_bounds (Py.split "g h") [mkSegment 0 0 1]).
    { repeat constructor. exists "h"%string. vm_compute. reflexivity. }
    apply H in Hin. inversion Hin as [|? ? Hpos _]. simpl in Hpos. lia.
  - eexists. split; [vm_compute; reflexivity|]. split; reflexivity.
Qed.

End TimelineClaims.

(** *** Claims about the suggestion parser *)

Module ParserFacts.

Import PyFacts Parser.

Section Parse.

Variable fromstring : string -> option Xml.Element.
Variable float_of_str : string -> option Q.

Abbreviation suggestion_of := (suggestion_of float_of_str).
Abbreviation collect := (collect float_of_str).
Abbreviation malformed := (malformed float_of_str).

Lemma float_raises (x : option string) :
  (exists e, float float_of_str x = Raise e) <->
  match x with Some s => float_of_str s = None | None => True end.
Proof.
  unfold float. destruct x as [s|].
  - destruct (float_of_str s) as [q|].
    + split; [intros [e He]; discriminate | discriminate].
    + split; eauto.
  - split; eauto.
Qed.

(** The loop body raises exactly on a malformed [video] element. *)
Lemma suggestion_of_raises (v : Xml.Element) :
  (exists e, suggestion_of v = Raise e) <-> malformed v.
Proof.
  unfold Parser.suggestion_of, Parser.malformed, missing, non_numeric, text_of.
  destruct (Xml.find "query" v) as [q|];
    [rewrite bind_Ok | rewrite bind_Raise; split; eauto].
  destruct (Xml.find "start" v) as [s|];
    [rewrite bind_Ok | rewrite bind_Raise; split; eauto].
  destruct (float float_of_str (Xml.text s)) as [x|e] eqn:Hs.
  - rewrite bind_Ok.
    assert (Hsn : ~ match Xml.text s with
                    | Some t => float_of_str t = None | None => True end).
    { intros H. apply float_raises in H as [e He]. congruence. }
    destruct (Xml.find "end" v) as [n|];
      [rewrite bind_Ok | rewrite bind_Raise; split; eauto 6].
    destruct (float float_of_str (Xml.text n)) as [y|e] eqn:Hn.
    + rewrite bind_Ok.
      assert (Hnn : ~ match Xml.text n with
                      | Some t => float_of_str t = None | None => True end).
      { intros H. apply float_raises in H as [e He]. congruence. }
      split; [intros [e He]; discriminate|].
      intros [H|[H|[H|[(e & [= <-] & H)|(e & [= <-] & H)]]]];
        try discriminate; contradiction.
    + rewrite bind_Raise. split; [|eauto]. intros _.
      do 4 right. exists n. split; [reflexivity|].
      apply float_raises. eauto.
  - rewrite bind_Raise. split; [|eauto]. intros _.
    do 3 right. left. exists s. split; [reflexivity|].
    apply float_raises. eauto.
Qed.

Lemma suggestion_of_total (v : Xml.Element) :
  (exists s, suggestion_of v = Ok s) \/ malformed v.
Proof.
  destruct (suggestion_of v) as [s|e] eqn:H; [eauto|].
  right. apply suggestion_of_raises. eauto.
Qed.




(** C9. When the wrapped output parses and holds no [video] element, the
    parser returns the empty list and raises nothing. *)
Theorem no_video_no_error (llm_output : string) (root : Xml.Element) :
  fromstring ("<root>" +:+ llm_output +:+ "</root>") = Some root ->
  Xml.findall_below "video" root = [] ->
  parse_video_suggestions fromstring float_of_str llm_output = Ok [].
Proof.
  intros Hroot Hnone. unfold parse_video_suggestions, parse_body.
  rewrite Hroot, Hnone. reflexivity.
Qed.

End Parse.


Lemma no_video_no_error_witness :
  parse_video_suggestions Xml.fromstring decimal
    "No footage fits these verses <b>at all</b>." = Ok [].
Proof.
  eapply (no_video_no_error Xml.fromstring decimal); vm_compute; reflexivity.
Defined.


(** *** Prose around the elements *)

Lemma append_empty_r (s : string) : s +:+ "" = s.
Proof.
  induction s as [|c s IH]; [reflexivity|].
  change (String c (s +:+ "") = String c s). rewrite IH. reflexivity.
Qed.

Lemma append_assoc (a b c : string) : (a +:+ b) +:+ c = a +:+ (b +:+ c).
Proof.
  induction a as [|x a IH]; [reflexivity|].
  change (String x ((a +:+ b) +:+ c) = String x (a +:+ b +:+ c)).
  rewrite IH. reflexivity.
Qed.


#[local] Arguments String.append : simpl nomatch.








End ParserFacts.

(** *** Claims about the coverage reconciler *)

Module ReconcilerFacts.

Import Reconciler.

Local Open Scope Q_scope.




(** **** Chains *)











(** **** The pass over adjacent pairs *)







(** **** Clamping *)








(** **** Running the reconciler on a chain *)











End ReconcilerFacts.

(* ===================================================================== *)
(** * Further properties of the timeline builder *)
(* ===================================================================== *)

Module TimelineExtras.

Import PyFacts Timeline TimelineSpec TimelineFacts TimelineMore.

Section Loop.

Variable quran_data : gmap Z (gmap Z string).
Variable timestamp_data : gmap (Z * Z) TimestampEntry.
Variable translation_data : gmap (Z * Z * Z) string.
Variable surah_number : Z.

Abbreviation found := (found quran_data timestamp_data surah_number).
Abbreviation process_aya :=
  (process_aya quran_data timestamp_data translation_data surah_number).
Abbreviation verse_loop :=
  (verse_loop quran_data timestamp_data translation_data surah_number).
Abbreviation verse_step := (verse_step translation_data surah_number).

Lemma found_Some aya_number words entry :
  found aya_number = Some (words, entry) <->
  exists text,
    quran_data !! surah_number ≫= (.!! aya_number) = Some text /\
    words = Py.split text /\
    timestamp_data !! (surah_number, aya_number) = Some entry.
Proof.
  unfold TimelineMore.found.
  destruct (quran_data !! surah_number ≫= (.!! aya_number)) as [text|];
    [|split; [discriminate | intros (? & ? & _); discriminate]].
  destruct (timestamp_data !! (surah_number, aya_number)) as [e|].
  - split.
    + intros [= <- <-]. eauto.
    + intros (? & [= <-] & -> & [= <-]). reflexivity.
  - split; [discriminate | intros (? & _ & _ & ?); discriminate].
Qed.

Lemma process_aya_not_found st aya_number :
  found aya_number = None -> process_aya st aya_number = Ok st.
Proof.
  unfold TimelineMore.found. intros H.
  destruct (quran_data !! surah_number ≫= (.!! aya_number)) as [text|] eqn:Ht;
    [|apply process_aya_skip_text; exact Ht].
  destruct (timestamp_data !! (surah_number, aya_number)) as [e|] eqn:He;
    [discriminate|]. apply process_aya_skip_timestamps; exact He.
Qed.

Lemma process_aya_step st st' aya_number words entry :
  found aya_number = Some (words, entry) ->
  process_aya st aya_number = Ok st' <->
  verse_step st st' aya_number words entry.
Proof.
  intros H. apply found_Some in H as (text & Ht & -> & He).
  apply process_aya_found; assumption.
Qed.

Lemma process_aya_cases st st' aya_number :
  process_aya st aya_number = Ok st' ->
  (found aya_number = None /\ st' = st) \/
  exists words entry,
    found aya_number = Some (words, entry) /\
    verse_step st st' aya_number words entry.
Proof.
  intros H. destruct (found aya_number) as [[words entry]|] eqn:Hf.
  - right. exists words, entry. split; [reflexivity|].
    apply (process_aya_step _ _ _ _ _ Hf). exact H.
  - left. rewrite (process_aya_not_found _ _ Hf) in H. injection H as <-. auto.
Qed.

Lemma verse_loop_app l1 l2 st :
  verse_loop (l1 ++ l2) st = verse_loop l1 st ≫= verse_loop l2.
Proof.
  revert st. induction l1 as [|a l1 IH]; intros st; [reflexivity|].
  simpl. destruct (process_aya st a) as [st1|e].
  - rewrite !bind_Ok. apply IH.
  - rewrite !bind_Raise. reflexivity.
Qed.

(** X1. A verse missing from the verse-text store or from the timestamp
    store changes nothing: the loop over a list holding it does what the
    loop over the list without it does. *)
Theorem absent_verse_ignored (l1 l2 : list Z) (aya_number : Z) (st : LoopState) :
  found aya_number = None ->
  verse_loop (l1 ++ aya_number :: l2) st = verse_loop (l1 ++ l2) st.
Proof.
  intros H. rewrite !verse_loop_app.
  destruct (verse_loop l1 st) as [st1|e]; [|reflexivity].
  rewrite !bind_Ok. simpl. rewrite (process_aya_not_found _ _ H). reflexivity.
Qed.

(** X2. When the loop ends without an exception, it has appended one audio
    URL for each verse it found, in verse-list order, whether or not the
    verse gave a record. *)
Theorem one_url_per_found_verse (ayas : list Z) : forall st st',
  verse_loop ayas st = Ok st' ->
  audio_urls st' = audio_urls st ++ found_urls quran_data timestamp_data surah_number ayas.
Proof.
  induction ayas as [|a ayas IH]; intros st st' H; simpl in H.
  - injection H as <-. unfold found_urls. simpl. rewrite app_nil_r. reflexivity.
  - destruct (process_aya st a) as [st1|e] eqn:Hs;
      [rewrite bind_Ok in H | rewrite bind_Raise in H; discriminate].
    rewrite (IH _ _ H). unfold found_urls. simpl.
    destruct (process_aya_cases _ _ _ Hs) as [[Hf ->]|(words & entry & Hf & Hstep)].
    + fold found. rewrite Hf. reflexivity.
    + fold found. rewrite Hf. simpl.
      destruct Hstep as (recs & adv & _ & _ & ->). simpl.
      rewrite <- app_assoc. reflexivity.
Qed.


Abbreviation verse_records :=
  (verse_records quran_data timestamp_data translation_data surah_number).

(** The records a run appends, verse by verse. *)
Lemma verse_loop_records (ayas : list Z) : forall st st',
  verse_loop ayas st = Ok st' ->
  exists groups,
    result st' = result st ++ concat groups /\
    Forall2 verse_records ayas groups.
Proof.
  induction ayas as [|a ayas IH]; intros st st' H; simpl in H.
  - injection H as <-. exists []. simpl. rewrite app_nil_r. auto.
  - destruct (process_aya st a) as [st1|e] eqn:Hs;
      [rewrite bind_Ok in H | rewrite bind_Raise in H; discriminate].
    destruct (IH _ _ H) as (groups & Hres & Hgroups).
    destruct (process_aya_cases _ _ _ Hs) as [[Hf ->]|(words & entry & Hf & Hstep)].
    + exists ([] :: groups). split; [exact Hres|].
      constructor; [|exact Hgroups].
      unfold TimelineMore.verse_records. fold found. rewrite Hf. reflexivity.
    + destruct Hstep as (recs & adv & Hrecs & _ & ->). simpl in Hres.
      exists (recs :: groups). split.
      * rewrite Hres. simpl. rewrite <- app_assoc. reflexivity.
      * constructor; [|exact Hgroups].
        unfold TimelineMore.verse_records. fold found. rewrite Hf. eauto.
Qed.


Lemma verse_records_traced a recs w :
  verse_records a recs -> In w recs ->
  aya w = a /\ surah w = surah_number /\
  traced quran_data timestamp_data translation_data surah_number w.
Proof.
  unfold TimelineMore.verse_records. fold found.
  destruct (found a) as [[words entry]|] eqn:Hf; [|intros -> []].
  apply found_Some in Hf as (text & Ht & -> & He).
  intros (off & H) Hw.
  apply list_elem_of_In, list_elem_of_lookup in Hw as [i Hi].
  destruct (Forall2_lookup_r _ _ _ _ _ H Hi) as (s & Hs & Hinfo).
  apply word_info_ok in Hinfo as (Hidx & Htr & Hsu & Hay & Hpos & Hst & Hen).
  split; [exact Hay|]. split; [exact Hsu|].
  exists text, entry, s. rewrite Hay, Hpos.
  split; [exact Ht|]. split; [exact He|].
  split.
  { apply lookup_take_Some in Hs as [Hs _].
    apply list_elem_of_In. eapply list_elem_of_lookup_2. exact Hs. }
  split; [reflexivity|]. split; [exact Hidx|]. split; [exact Htr|].
  rewrite Hst, Hen. lra.
Qed.

End Loop.


(** What a successful call returns: the records of the verses of the
    range, verse by verse. *)
Lemma returned_records
    (quran_data : gmap Z (gmap Z string))
    (timestamp_data : gmap (Z * Z) TimestampEntry)
    (translation_data : gmap (Z * Z * Z) string)
    (surah_number aya_start aya_end : Z) (words : list WordInfo) :
  get_words_with_timestamps (Some quran_data) (Some timestamp_data)
    (Some translation_data) surah_number aya_start aya_end = Ok words ->
  exists groups,
    words = concat groups /\
    Forall2 (verse_records quran_data timestamp_data translation_data surah_number)
            (Py.range aya_start (aya_end + 1)) groups.
Proof.
  unfold get_words_with_timestamps. intros H.
  destruct (verse_loop quran_data timestamp_data translation_data surah_number
              (Py.range aya_start (aya_end + 1)) initial) as [st|e] eqn:Hloop;
    [rewrite bind_Ok in H | rewrite bind_Raise in H; discriminate].
  injection H as <-.
  destruct (verse_loop_records _ _ _ _ _ _ _ Hloop) as (groups & Hres & Hg).
  exists groups. split; [exact Hres | exact Hg].
Qed.


Lemma in_concat_groups {A B} (R : A -> list B -> Prop) l groups w :
  Forall2 R l groups -> In w (concat groups) ->
  exists a g, In a l /\ R a g /\ In w g.
Proof.
  induction 1 as [|a g l groups Ha _ IH]; [intros []|].
  simpl. rewrite in_app_iff. intros [Hw|Hw].
  - exists a, g. auto.
  - destruct (IH Hw) as (a' & g' & H1 & H2 & H3). exists a', g'. auto.
Qed.



Lemma range_lookup a b i x : Py.range a b !! i = Some x -> x = a + Z.of_nat i.
Proof.
  unfold Py.range. change (map ?f ?l) with (f <$> l).
  rewrite list_lookup_fmap. intros H.
  destruct (seq 0 (Z.to_nat (b - a)) !! i) as [k|] eqn:Hk; [|discriminate].
  apply lookup_seq in Hk as [-> _]. injection H as <-. reflexivity.
Qed.

(** The group and the place in it of the record at index [i]. *)
Lemma concat_lookup {A} (groups : list (list A)) : forall i w,
  concat groups !! i = Some w ->
  exists k g, groups !! k = Some g /\ In w g /\
    forall j v, (i <= j)%nat -> concat groups !! j = Some v ->
      In v g \/ exists k' g', (k < k')%nat /\ groups !! k' = Some g' /\ In v g'.
Proof.
  induction groups as [|g groups IH]; intros i w H; [discriminate|].
  simpl in H. destruct (decide (i < length g)%nat) as [Hlt|Hge].
  - rewrite lookup_app_l in H by exact Hlt.
    exists 0%nat, g. split; [reflexivity|]. split.
    + apply list_elem_of_In. eapply list_elem_of_lookup_2. exact H.
    + intros j v _ Hv. simpl in Hv.
      apply list_elem_of_lookup_2, list_elem_of_In, in_app_iff in Hv as [Hv|Hv];
        [left; exact Hv|]. right.
      apply list_elem_of_In, list_elem_of_lookup in Hv as [j' Hj'].
      destruct (IH _ _ Hj') as (k' & g' & Hk' & Hin & _).
      exists (S k'), g'. split; [lia|]. split; [exact Hk' | exact Hin].
  - rewrite lookup_app_r in H by lia.
    destruct (IH _ _ H) as (k & g0 & Hk & Hin & Hlater).
    exists (S k), g0. split; [exact Hk|]. split; [exact Hin|].
    intros j v Hij Hv. simpl in Hv. rewrite lookup_app_r in Hv by lia.
    destruct (Hlater (j - length g)%nat v ltac:(lia) Hv)
      as [Hv'|(k' & g' & Hlt & Hk' & Hv')]; [left; exact Hv'|].
    right. exists (S k'), g'. split; [lia|]. split; [exact Hk' | exact Hv'].
Qed.

(** X5. The returned records are listed verse by verse, in increasing verse
    order. *)
Theorem records_in_verse_order
    (quran_data : gmap Z (gmap Z string))
    (timestamp_data : gmap (Z * Z) TimestampEntry)
    (translation_data : gmap (Z * Z * Z) string)
    (surah_number aya_start aya_end : Z) (words : list WordInfo) :
  get_words_with_timestamps (Some quran_data) (Some timestamp_data)
    (Some translation_data) surah_number aya_start aya_end = Ok words ->
  verse_ordered words.
Proof.
  intros H. apply returned_records in H as (groups & -> & Hg).
  assert (Haya : forall k g v, groups !! k = Some g -> In v g ->
                   aya v = aya_start + Z.of_nat k).
  { intros k g v Hk Hv.
    destruct (Forall2_lookup_r _ _ _ _ _ Hg Hk) as (a & Ha & Hrec).
    apply range_lookup in Ha as ->.
    apply (verse_records_traced _ _ _ _ _ _ _ Hrec Hv). }
  intros i j a b Hij Ha Hb.
  destruct (concat_lookup _ _ _ Ha) as (k & g & Hk & Hin & Hlater).
  rewrite (Haya _ _ _ Hk Hin).
  destruct (Hlater j b Hij Hb) as [Hb'|(k' & g' & Hlt & Hk' & Hb')].
  - rewrite (Haya _ _ _ Hk Hb'). lia.
  - rewrite (Haya _ _ _ Hk' Hb'). lia.
Qed.


Lemma range_nil a b : b <= a -> Py.range a b = [].
Proof. intros H. unfold Py.range. replace (Z.to_nat (b - a)) with 0%nat by lia. reflexivity. Qed.

Lemma range_cons a b : a < b -> Py.range a b = a :: Py.range (a + 1) b.
Proof.
  intros H. unfold Py.range.
  replace (Z.to_nat (b - a)) with (S (Z.to_nat (b - (a + 1)))) by lia.
  simpl. f_equal; [lia|].
  rewrite <- seq_shift, map_map. apply map_ext. intros k. lia.
Qed.

Lemma range_split a b c :
  a <= b <= c -> Py.range a c = Py.range a b ++ Py.range b c.
Proof.
  intros H. remember (Z.to_nat (b - a)) as n eqn:Hn.
  revert a H Hn. induction n as [|n IH]; intros a H Hn.
  - replace b with a by lia. rewrite (range_nil a a) by lia. reflexivity.
  - rewrite (range_cons a c), (range_cons a b) by lia. simpl.
    f_equal. apply IH; lia.
Qed.

Section Body.

Variable quran_data : gmap Z (gmap Z string).
Variable timestamp_data : gmap (Z * Z) TimestampEntry.
Variable translation_data : gmap (Z * Z * Z) string.
Variable surah_number : Z.

Abbreviation found := (found quran_data timestamp_data surah_number).
Abbreviation process_aya :=
  (process_aya quran_data timestamp_data translation_data surah_number).
Abbreviation verse_loop :=
  (verse_loop quran_data timestamp_data translation_data surah_number).

Lemma verse_loop_none_found (ayas : list Z) (st : LoopState) :
  Forall (fun a => found a = None) ayas -> verse_loop ayas st = Ok st.
Proof.
  induction 1 as [|a ayas Ha _ IH]; [reflexivity|].
  simpl. rewrite (process_aya_not_found _ _ _ _ _ _ Ha), bind_Ok. exact IH.
Qed.

(** A found verse that reaches no segment, has a null duration and comes
    when no record has been emitted yet: [result[-1]] fails. *)
Lemma process_aya_nothing_to_read st aya_number words entry :
  found aya_number = Some (words, entry) ->
  duration entry = None ->
  words = [] \/ segments entry = [] ->
  result st = [] ->
  process_aya st aya_number = Raise Py.IndexError.
Proof.
  intros Hf Hdur Hnone Hres.
  apply found_Some in Hf as (text & Ht & -> & He).
  unfold Timeline.process_aya.
  assert (aya_text quran_data surah_number aya_number = Ok text) as ->.
  { unfold aya_text, Py.getitem.
    destruct (quran_data !! surah_number) as [verses|]; simpl in *; [|discriminate].
    rewrite Ht. reflexivity. }
  unfold Py.getitem at 1. rewrite He.
  assert (match_words translation_data surah_number aya_number (Py.split text)
            (offset st) 0%nat (segments entry) (result st) = Ok []) as ->.
  { apply match_words_ok. exists []. rewrite Hres. split; [reflexivity|].
    rewrite Nat.sub_0_r.
    destruct Hnone as [Hn | Hn]; rewrite Hn; [rewrite take_0 | rewrite take_nil];
      constructor. }
  rewrite bind_Ok, Hdur. unfold last_end. rewrite index_last. reflexivity.
Qed.


End Body.

(** X6. When the first verse of the range that is found in both stores has
    a null duration and no word or no segment, the call raises
    [IndexError]: there is no last record to take the end time from. *)
Theorem empty_fallback_raises
    (quran_data : gmap Z (gmap Z string))
    (timestamp_data : gmap (Z * Z) TimestampEntry)
    (translation_data : gmap (Z * Z * Z) string)
    (surah_number aya_start aya_end aya_number : Z)
    (words : list string) (entry : TimestampEntry) :
  aya_start <= aya_number <= aya_end ->
  (forall a, aya_start <= a < aya_number ->
     found quran_data timestamp_data surah_number a = None) ->
  found quran_data timestamp_data surah_number aya_number = Some (words, entry) ->
  duration entry = None ->
  words = [] \/ segments entry = [] ->
  get_words_with_timestamps (Some quran_data) (Some timestamp_data)
    (Some translation_data) surah_number aya_start aya_end
  = Raise Py.IndexError.
Proof.
  intros Hrange Hbefore Hf Hdur Hnone. unfold get_words_with_timestamps.
  rewrite (range_split aya_start aya_number (aya_end + 1)) by lia.
  rewrite (range_cons aya_number (aya_end + 1)) by lia.
  rewrite verse_loop_app, verse_loop_none_found.
  - rewrite bind_Ok. simpl.
    rewrite (process_aya_nothing_to_read _ _ _ _ initial _ _ _ Hf Hdur Hnone eq_refl).
    reflexivity.
  - apply Forall_forall. intros a Ha.
    apply list_elem_of_In, TimelineClaims.range_elem in Ha. apply Hbefore. lia.
Qed.

Lemma index_negative {A} (l : list A) (i : Z) (a : A) :
  Py.index l i = Ok a -> i < 0 ->
  l !! Z.to_nat (Z.of_nat (length l) + i) = Some a.
Proof.
  unfold Py.index. intros H Hneg.
  replace (i <? 0) with true in H by (symmetry; apply Z.ltb_lt; exact Hneg).
  destruct ((0 <=? i + Z.of_nat (length l)) && (i + Z.of_nat (length l) <? Z.of_nat (length l)));
    [|discriminate].
  rewrite Z.add_comm.
  destruct (l !! Z.to_nat (i + Z.of_nat (length l))); [|discriminate].
  injection H as <-. reflexivity.
Qed.

(** X8. A word position of zero or below is not refused: the record it
    gives carries the word counted from the end of the verse, position 0
    the last word. *)
Theorem nonpositive_position_wraps
    (quran_data : gmap Z (gmap Z string))
    (timestamp_data : gmap (Z * Z) TimestampEntry)
    (translation_data : gmap (Z * Z * Z) string)
    (surah_number aya_start aya_end : Z) (words : list WordInfo) (w : WordInfo) :
  get_words_with_timestamps (Some quran_data) (Some timestamp_data)
    (Some translation_data) surah_number aya_start aya_end = Ok words ->
  In w words ->
  word_position w <= 0 ->
  exists text,
    quran_data !! surah_number ≫= (.!! aya w) = Some text /\
    Py.split text
      !! Z.to_nat (Z.of_nat (length (Py.split text)) + (word_position w - 1))
    = Some (word w).
Proof.
  intros H Hw Hpos. apply returned_records in H as (groups & -> & Hg).
  destruct (in_concat_groups _ _ _ _ Hg Hw) as (a & g & _ & Hrec & Hin).
  destruct (verse_records_traced _ _ _ _ _ _ _ Hrec Hin)
    as (_ & _ & text & entry & s & Ht & _ & _ & _ & Hidx & _).
  exists text. split; [exact Ht|]. apply index_negative; [exact Hidx | lia].
Qed.

Lemma between_elem lo hi l p :
  between lo hi l -> In p l -> (lo <= p.1)%Q /\ (p.1 <= p.2)%Q /\ (p.2 <= hi)%Q.
Proof.
  revert lo. induction l as [|[s e] l IH]; intros lo H Hp; [destruct Hp|].
  destruct H as (H1 & H2 & H3). pose proof (between_bounds _ _ _ H3) as Hb.
  destruct Hp as [<-|Hp]; simpl.
  - repeat split; lra.
  - destruct (IH _ H3 Hp) as (Ha & Hc & Hd). repeat split; lra.
Qed.

(** X9. On valid input (local segments in time order on a zero-based
    clock, a declared duration reaching the last local end) every returned
    record starts at or after time zero and ends no earlier than it
    starts. *)
Theorem record_times_ordered
    (quran_data : gmap Z (gmap Z string))
    (timestamp_data : gmap (Z * Z) TimestampEntry)
    (translation_data : gmap (Z * Z * Z) string)
    (surah_number aya_start aya_end : Z) (words : list WordInfo) (w : WordInfo) :
  (forall key entry, timestamp_data !! key = Some entry -> valid_entry entry) ->
  get_words_with_timestamps (Some quran_data) (Some timestamp_data)
    (Some translation_data) surah_number aya_start aya_end = Ok words ->
  In w words ->
  (0 <= start w)%Q /\ (start w <= end_ w)%Q.
Proof.
  intros Hvalid Hrun Hw. unfold get_words_with_timestamps in Hrun.
  destruct (verse_loop quran_data timestamp_data translation_data surah_number
              (Py.range aya_start (aya_end + 1)) initial) as [st|e] eqn:Hloop;
    [rewrite bind_Ok in Hrun | rewrite bind_Raise in Hrun; discriminate].
  injection Hrun as <-.
  assert (Hord : in_order st).
  { eapply (verse_loop_in_order quran_data timestamp_data translation_data
              surah_number Hvalid); [|exact Hloop].
    unfold in_order. simpl. lra. }
  destruct (between_elem _ _ _ (times w) Hord) as (H1 & H2 & _).
  - apply in_map_iff. exists w. auto.
  - simpl in *. auto.
Qed.


(** *** The properties above on the sample stores *)

Lemma absent_verse_ignored_witness :
  verse_loop Sample.quran Sample.timestamps_without_2 Sample.translations 1
    ([1] ++ 2 :: [3]) initial
  = verse_loop Sample.quran Sample.timestamps_without_2 Sample.translations 1
      ([1] ++ [3]) initial.
Proof.
  apply (absent_verse_ignored Sample.quran Sample.timestamps_without_2
           Sample.translations 1 [1] [3] 2 initial).
  vm_compute. reflexivity.
Defined.

Lemma one_url_per_found_verse_witness :
  exists st',
    verse_loop Sample.quran Sample.timestamps_without_2 Sample.translations 1
      [1; 2; 3] initial = Ok st' /\
    audio_urls st' = ["u1"; "u3"]%string.
Proof.
  eexists. split; [vm_compute; reflexivity|].
  apply (one_url_per_found_verse Sample.quran Sample.timestamps_without_2
           Sample.translations 1 [1; 2; 3] initial).
  vm_compute. reflexivity.
Defined.



Lemma records_in_verse_order_witness :
  exists words,
    get_words_with_timestamps (Some Sample.quran) (Some Sample.timestamps)
      (Some Sample.translations) 1 1 4 = Ok words /\
    verse_ordered words.
Proof.
  eexists. split; [vm_compute; reflexivity|].
  apply (records_in_verse_order Sample.quran Sample.timestamps
           Sample.translations 1 1 4).
  vm_compute. reflexivity.
Defined.

Lemma empty_fallback_raises_witness :
  get_words_with_timestamps (Some SampleMore.quran_blank)
    (Some SampleMore.timestamps_blank) (Some SampleMore.translations_blank)
    1 6 8 = Raise Py.IndexError.
Proof.
  apply (empty_fallback_raises SampleMore.quran_blank SampleMore.timestamps_blank
           SampleMore.translations_blank 1 6 8 7 []
           (mkEntry [mkSegment 1 0 1] "u7" None)).
  - lia.
  - intros a Ha. assert (a = 6) as -> by lia. vm_compute. reflexivity.
  - vm_compute. reflexivity.
  - reflexivity.
  - left. reflexivity.
Defined.


Lemma nonpositive_position_wraps_witness :
  exists text,
    Sample.quran !! 1 ≫= (.!! 4) = Some text /\
    Py.split text !! Z.to_nat (Z.of_nat (length (Py.split text)) + (0 - 1))
    = Some "h"%string.
Proof.
  apply (nonpositive_position_wraps Sample.quran Sample.timestamps
           Sample.translations 1 4 4
           [mkWord "h" 1 4 0 0 1 "G"] (mkWord "h" 1 4 0 0 1 "G")).
  - vm_compute. reflexivity.
  - left. reflexivity.
  - simpl. lia.
Defined.

Lemma record_times_ordered_witness :
  (0 <= 0)%Q /\ (0 <= 2)%Q.
Proof.
  apply (record_times_ordered Sample.quran Sample.timestamps
           Sample.translations 1 3 3 [mkWord "f" 1 3 1 0 2 "F"]
           (mkWord "f" 1 3 1 0 2 "F")).
  - apply TimelineClaims.sample_timestamps_valid.
  - vm_compute. reflexivity.
  - left. reflexivity.
Defined.

End TimelineExtras.

(* ===================================================================== *)
(** * Properties of the footage selection *)
(* ===================================================================== *)

Module PexelsFacts.

Import PyFacts Pexels.

Lemma index_In {A} (l : list A) (i : Z) (a : A) : Py.index l i = Ok a -> In a l.
Proof.
  unfold Py.index.
  destruct ((0 <=? _) && (_ <? _)); [|discriminate].
  destruct (l !! _) as [x|] eqn:H; [|discriminate].
  intros [= <-]. apply list_elem_of_In. eapply list_elem_of_lookup_2. exact H.
Qed.

Lemma index_0 {A} (l : list A) :
  Py.index l 0 = match l with a :: _ => Ok a | [] => Raise Py.IndexError end.
Proof. destruct l; reflexivity. Qed.

(** **** The file to download *)

Lemma insert_by_area_cons x l : exists y r, insert_by_area x l = y :: r.
Proof.
  destruct l as [|z l]; simpl; [eauto|]. destruct (area z <=? area x); eauto.
Qed.

(** The head of the sorted files is the first file of largest area. *)
Lemma sort_by_area_head (files : list VideoFile) (f : VideoFile) (r : list VideoFile) :
  sort_by_area files = f :: r ->
  exists l1 l2,
    files = l1 ++ f :: l2 /\
    Forall (fun g => area g < area f) l1 /\
    Forall (fun g => area g <= area f) l2.
Proof.
  revert f r. induction files as [|x files IH]; intros f r H; [discriminate|].
  simpl in H. destruct (sort_by_area files) as [|y r'] eqn:Hs.
  - destruct files as [|z files'].
    + injection H as <- <-. exists [], []. repeat constructor.
    + simpl in Hs. destruct (insert_by_area_cons z (sort_by_area files'))
        as (a & b & Hab). rewrite Hab in Hs. discriminate.
  - destruct (IH y r' eq_refl) as (l1 & l2 & -> & H1 & H2).
    simpl in H. destruct (area y <=? area x) eqn:Hyx.
    + injection H as <- <-. apply Z.leb_le in Hyx.
      exists [], (l1 ++ y :: l2). split; [reflexivity|]. split; [constructor|].
      apply Forall_app. split.
      * eapply Forall_impl; [exact H1|]. intros g Hg. simpl in Hg. lia.
      * constructor; [exact Hyx|].
        eapply Forall_impl; [exact H2|]. intros g Hg. simpl in Hg. lia.
    + injection H as <- <-. apply Z.leb_gt in Hyx.
      exists (x :: l1), l2. split; [reflexivity|]. split; [|exact H2].
      constructor; assumption.
Qed.

(** X16. When some file has the requested quality, the first such file is
    the one downloaded, whatever its size, provided its dictionary is not
    empty. *)
Theorem first_match_is_target (quality : option string)
    (l1 l2 : list VideoFile) (f : VideoFile) :
  Forall (fun g => file_quality g <> quality) l1 ->
  file_quality f = quality ->
  truthy f = true ->
  target_file quality (l1 ++ f :: l2) = Ok f.
Proof.
  intros Hl1 Hf Ht. unfold target_file.
  replace (List.find _ (l1 ++ f :: l2)) with (Some f); [rewrite Ht; reflexivity|].
  symmetry. induction Hl1 as [|g l1 Hg _ IH]; simpl.
  - rewrite bool_decide_eq_true_2 by exact Hf. reflexivity.
  - rewrite bool_decide_eq_false_2 by exact Hg. exact IH.
Qed.

(** X17. When no file has the requested quality, the file downloaded is the
    first one of largest area (width times height, a missing dimension
    counting as 0); without any file the lookup raises [IndexError]. *)
Theorem fallback_is_largest (quality : option string) (files : list VideoFile) :
  Forall (fun g => file_quality g <> quality) files ->
  match target_file quality files with
  | Ok f =>
      exists l1 l2,
        files = l1 ++ f :: l2 /\
        Forall (fun g => area g < area f) l1 /\
        Forall (fun g => area g <= area f) l2
  | Raise e => files = [] /\ e = Py.IndexError
  end.
Proof.
  intros Hnone. unfold target_file.
  replace (List.find _ files) with (@None VideoFile).
  - rewrite index_0. destruct (sort_by_area files) as [|f r] eqn:Hs.
    + split; [|reflexivity]. destruct files as [|x files]; [reflexivity|].
      simpl in Hs. destruct (insert_by_area_cons x (sort_by_area files))
        as (a & b & Hab). rewrite Hab in Hs. discriminate.
    + exact (sort_by_area_head _ _ _ Hs).
  - symmetry. induction Hnone as [|g l Hg _ IH]; [reflexivity|].
    simpl. rewrite bool_decide_eq_false_2 by exact Hg. exact IH.
Qed.

Section Client.

Variable search_videos :
  string -> option string -> option string -> Py.result (option (list Video)).
Variable get_video : option Z -> Py.result (list VideoFile).
Variable randbelow : nat -> nat.
Variable makedirs : string -> Py.result unit.
Variable url_extension : string -> string.
Variable download_file : string -> string -> string -> Py.result (option string).

Abbreviation select_video := (select_video search_videos randbelow).
Abbreviation download_video :=
  (download_video get_video makedirs url_extension download_file).

(** The videos kept by the duration filter. *)
Lemma long_enough_ok (d : Z) (videos kept : list Video) :
  long_enough d videos = Ok kept ->
  Forall (fun v => is_Some (video_duration v)) videos /\
  kept = List.filter (fun v => d <=? default 0 (video_duration v)) videos.
Proof.
  revert kept. induction videos as [|v videos IH]; intros kept H; simpl in H.
  - injection H as <-. split; [constructor | reflexivity].
  - destruct (video_duration v) as [vd|] eqn:Hv; [|discriminate].
    destruct (long_enough d videos) as [rest|e];
      [rewrite bind_Ok in H | rewrite bind_Raise in H; discriminate].
    destruct (IH rest eq_refl) as [Hall ->]. injection H as <-.
    split; [constructor; [rewrite Hv; eauto | exact Hall]|].
    simpl. rewrite Hv. reflexivity.
Qed.

Lemma long_enough_total (d : Z) (videos : list Video) :
  Forall (fun v => is_Some (video_duration v)) videos ->
  long_enough d videos
  = Ok (List.filter (fun v => d <=? default 0 (video_duration v)) videos).
Proof.
  induction 1 as [|v videos [vd Hv] _ IH]; [reflexivity|].
  simpl. rewrite Hv, IH, bind_Ok. reflexivity.
Qed.

Lemma long_enough_missing (d : Z) (videos : list Video) :
  Exists (fun v => video_duration v = None) videos ->
  long_enough d videos = Raise Py.TypeError.
Proof.
  induction 1 as [v videos Hv|v videos _ IH]; simpl.
  - rewrite Hv. reflexivity.
  - destruct (video_duration v); [|reflexivity]. rewrite IH. reflexivity.
Qed.

(** X10. An id returned by [select_video] is the id of a video of the
    search results, and when a minimum duration was asked for that video
    lasts at least as long, whatever the selection method. *)
Theorem select_video_sound (query : string) (orientation size : option string)
    (selection_method : string) (offset duration : option Z) (i : Z) :
  select_video query orientation size selection_method offset duration
  = Ok (Some i) ->
  exists videos v,
    search_videos query orientation size = Ok (Some videos) /\
    In v videos /\ video_id v = Some i /\
    forall d, duration = Some d ->
      exists vd, video_duration v = Some vd /\ d <= vd.
Proof.
  unfold Pexels.select_video.
  destruct (search_videos query orientation size) as [[videos|]|e];
    [rewrite bind_Ok | rewrite bind_Ok; discriminate
     | rewrite bind_Raise; discriminate].
  destruct videos as [|v0 videos0]; [discriminate|].
  set (videos := v0 :: videos0).
  assert (Hpick : forall kept v,
            (forall x, In x kept -> In x videos /\
               forall d, duration = Some d ->
                 exists vd, video_duration x = Some vd /\ d <= vd) ->
            In v kept ->
            (id_of v ≫= (fun i0 => Ok (Some i0))) = Ok (Some i) ->
            exists videos' v',
              Ok (Some videos) = Ok (Some videos') /\ In v' videos' /\
              video_id v' = Some i /\
              forall d, duration = Some d ->
                exists vd, video_duration v' = Some vd /\ d <= vd).
  { intros kept v Hkept Hv Hid. unfold id_of in Hid.
    destruct (video_id v) as [j|] eqn:Hj; [|discriminate].
    rewrite bind_Ok in Hid. injection Hid as ->.
    destruct (Hkept v Hv) as [Hin Hd]. exists videos, v. auto. }
  assert (Hsel : forall kept,
            (forall x, In x kept -> In x videos /\
               forall d, duration = Some d ->
                 exists vd, video_duration x = Some vd /\ d <= vd) ->
            (if (length kept =? 0)%nat then Raise Py.ValueError
             else if String.eqb selection_method "best"
             then Py.index kept 0 ≫= (fun v => id_of v ≫= (fun i0 => Ok (Some i0)))
             else if String.eqb selection_method "random"
             then choice randbelow kept
                    ≫= (fun v => id_of v ≫= (fun i0 => Ok (Some i0)))
             else if String.eqb selection_method "offset"
             then match offset with
                  | Some o =>
                      if Z.of_nat (length kept) <=? o then Ok None
                      else Py.index kept o
                             ≫= (fun v => id_of v ≫= (fun i0 => Ok (Some i0)))
                  | None => Raise Py.ValueError
                  end
             else Raise Py.ValueError) = Ok (Some i) ->
            exists videos' v',
              Ok (Some videos) = Ok (Some videos') /\ In v' videos' /\
              video_id v' = Some i /\
              forall d, duration = Some d ->
                exists vd, video_duration v' = Some vd /\ d <= vd).
  { intros kept Hkept H.
    destruct (length kept =? 0)%nat; [discriminate|].
    destruct (String.eqb selection_method "best").
    { destruct (Py.index kept 0) as [v|] eqn:Hv;
        [rewrite bind_Ok in H | rewrite bind_Raise in H; discriminate].
      exact (Hpick kept v Hkept (index_In _ _ _ Hv) H). }
    destruct (String.eqb selection_method "random").
    { unfold choice in H.
      destruct (Py.index kept _) as [v|] eqn:Hv;
        [rewrite bind_Ok in H | rewrite bind_Raise in H; discriminate].
      exact (Hpick kept v Hkept (index_In _ _ _ Hv) H). }
    destruct (String.eqb selection_method "offset"); [|discriminate].
    destruct offset as [o|]; [|discriminate].
    destruct (Z.of_nat (length kept) <=? o); [discriminate|].
    destruct (Py.index kept o) as [v|] eqn:Hv;
      [rewrite bind_Ok in H | rewrite bind_Raise in H; discriminate].
    exact (Hpick kept v Hkept (index_In _ _ _ Hv) H). }
  destruct duration as [d|].
  - destruct (long_enough d videos) as [kept|e] eqn:Hk;
      [rewrite bind_Ok | rewrite bind_Raise; discriminate].
    apply long_enough_ok in Hk as [Hall ->].
    apply Hsel. intros x Hx. apply filter_In in Hx as [Hx Hd].
    split; [exact Hx|]. intros d' [= <-].
    rewrite List.Forall_forall in Hall. destruct (Hall x Hx) as [vd Hvd].
    rewrite Hvd in Hd. simpl in Hd. exists vd. split; [exact Hvd | lia].
  - rewrite bind_Ok. apply Hsel. intros x Hx. split; [exact Hx | discriminate].
Qed.



(** X12. A search without videos gives [None] whatever the method, but a
    search whose videos are all shorter than the minimum duration raises
    [ValueError]. *)
Theorem empty_versus_too_short (query : string)
    (orientation size : option string) (selection_method : string)
    (offset duration : option Z) (d : Z) (videos : list Video) :
  search_videos query orientation size = Ok (Some videos) ->
  (videos = [] ->
   select_video query orientation size selection_method offset duration
   = Ok None) /\
  (videos <> [] ->
   Forall (fun v => exists vd, video_duration v = Some vd /\ vd < d) videos ->
   select_video query orientation size selection_method offset (Some d)
   = Raise Py.ValueError).
Proof.
  intros Hs. unfold Pexels.select_video. rewrite Hs, !bind_Ok. split.
  - intros ->. reflexivity.
  - intros Hne Hshort. destruct videos as [|v0 videos0]; [contradiction|].
    rewrite long_enough_total.
    + rewrite bind_Ok.
      replace (List.filter _ (v0 :: videos0)) with (@nil Video); [reflexivity|].
      symmetry. clear -Hshort.
      induction Hshort as [|x l (vd & Hvd & Hlt) _ IH]; [reflexivity|].
      simpl. rewrite Hvd. simpl.
      replace (d <=? vd) with false by (symmetry; apply Z.leb_gt; exact Hlt).
      exact IH.
    + eapply Forall_impl; [exact Hshort|]. intros x (vd & Hvd & _). eauto.
Qed.

(** X13. With a minimum duration, a video of the results without a
    ["duration"] makes the call raise [TypeError], whatever the method. *)
Theorem missing_duration_raises (query : string)
    (orientation size : option string) (selection_method : string)
    (offset : option Z) (d : Z) (videos : list Video) :
  search_videos query orientation size = Ok (Some videos) ->
  Exists (fun v => video_duration v = None) videos ->
  select_video query orientation size selection_method offset (Some d)
  = Raise Py.TypeError.
Proof.
  intros Hs Hex. unfold Pexels.select_video. rewrite Hs, bind_Ok.
  destruct videos as [|v0 videos0]; [inversion Hex|].
  rewrite (long_enough_missing d _ Hex). reflexivity.
Qed.

(** X14. With the method "offset" the offset is a Python index into the
    results: at or past the length it gives [None], a negative one counts
    from the end, below minus the length it raises [IndexError], and a
    missing one raises [ValueError]. *)
Theorem offset_selection (query : string) (orientation size : option string)
    (videos : list Video) (o : Z) :
  search_videos query orientation size = Ok (Some videos) ->
  videos <> [] ->
  select_video query orientation size "offset" None None
  = Raise Py.ValueError /\
  (Z.of_nat (length videos) <= o ->
   select_video query orientation size "offset" (Some o) None = Ok None) /\
  (o < - Z.of_nat (length videos) ->
   select_video query orientation size "offset" (Some o) None
   = Raise Py.IndexError) /\
  (forall v, - Z.of_nat (length videos) <= o < 0 ->
     videos !! Z.to_nat (Z.of_nat (length videos) + o) = Some v ->
     select_video query orientation size "offset" (Some o) None
     = (id_of v ≫= fun i => Ok (Some i))).
Proof.
  intros Hs Hne. unfold Pexels.select_video. rewrite Hs, !bind_Ok.
  destruct videos as [|v0 videos0]; [contradiction|].
  set (videos := v0 :: videos0) in *.
  change (length videos =? 0)%nat with false. cbn [String.eqb Ascii.eqb Bool.eqb].
  split; [reflexivity|]. split; [|split].
  - intros H. replace (Z.of_nat (length videos) <=? o) with true
      by (symmetry; apply Z.leb_le; exact H). reflexivity.
  - intros H. replace (Z.of_nat (length videos) <=? o) with false
      by (symmetry; apply Z.leb_gt; lia).
    destruct (Py.index videos o) as [v|e] eqn:Hv.
    + assert (exists a, Py.index videos o = Ok a) as Hok by eauto.
      apply TimelineFacts.index_ok_iff in Hok. lia.
    + unfold Py.index in Hv.
      destruct ((0 <=? _) && (_ <? _)); [|injection Hv as <-; reflexivity].
      destruct (videos !! _); [discriminate | injection Hv as <-; reflexivity].
  - intros v H Hv. replace (Z.of_nat (length videos) <=? o) with false
      by (symmetry; apply Z.leb_gt; lia).
    unfold Py.index. replace (o <? 0) with true by (symmetry; apply Z.ltb_lt; lia).
    replace ((0 <=? o + Z.of_nat (length videos))
             && (o + Z.of_nat (length videos) <? Z.of_nat (length videos)))
      with true
      by (symmetry; apply andb_true_intro; split;
          [apply Z.leb_le | apply Z.ltb_lt]; lia).
    rewrite (Z.add_comm o), Hv. reflexivity.
Qed.

(** X15. With the method "random", when the generator stays below its bound
    and every video has an id, the call returns the id of one of the
    results. *)
Theorem random_selection (query : string) (orientation size : option string)
    (offset : option Z) (videos : list Video) :
  (forall n, (0 < n)%nat -> (randbelow n < n)%nat) ->
  search_videos query orientation size = Ok (Some videos) ->
  videos <> [] ->
  Forall (fun v => is_Some (video_id v)) videos ->
  exists v i,
    In v videos /\ video_id v = Some i /\
    select_video query orientation size "random" offset None = Ok (Some i).
Proof.
  intros Hrand Hs Hne Hids. unfold Pexels.select_video. rewrite Hs, !bind_Ok.
  destruct videos as [|v0 videos0]; [contradiction|].
  set (videos := v0 :: videos0) in *.
  change (length videos =? 0)%nat with false. cbn [String.eqb Ascii.eqb Bool.eqb].
  unfold choice.
  destruct (TimelineFacts.index_in_range videos
              (Z.of_nat (randbelow (length videos)))) as (v & Hv & Hl).
  { specialize (Hrand (length videos) ltac:(simpl; lia)). lia. }
  rewrite Hv, bind_Ok.
  assert (Hin : In v videos) by (eapply index_In; exact Hv).
  rewrite List.Forall_forall in Hids. destruct (Hids v Hin) as [i Hi].
  exists v, i. split; [exact Hin|]. split; [exact Hi|].
  unfold id_of. rewrite Hi. reflexivity.
Qed.


(** X18. A path returned by [download_video] is always the output directory
    joined with [pexels_video_<id><extension>], the extension being that of
    the chosen file's link and [.mp4] when the link has none. *)
Theorem download_path_shape (video_id : option Z) (quality : option string)
    (output_dir path : string) :
  download_video video_id quality output_dir = Some path ->
  exists files f link,
    get_video video_id = Ok files /\
    target_file quality files = Ok f /\
    file_link f = Some link /\
    path = Os.path_join output_dir
             ("pexels_video_" +:+ str_id video_id +:+
              (if bool_decide (url_extension link = "") then ".mp4"
               else url_extension link)).
Proof.
  unfold Pexels.download_video, download_body.
  destruct (get_video video_id) as [files|e] eqn:Hfiles;
    [rewrite bind_Ok | rewrite bind_Raise; discriminate].
  destruct (target_file quality files) as [f|e] eqn:Hf;
    [rewrite bind_Ok | rewrite bind_Raise; discriminate].
  destruct (makedirs output_dir) as [[]|e];
    [rewrite bind_Ok | rewrite bind_Raise; discriminate].
  destruct (file_link f) as [link|] eqn:Hlink;
    [rewrite bind_Ok | rewrite bind_Raise; discriminate].
  destruct (download_file _ _ _) as [r|e];
    [rewrite bind_Ok | rewrite bind_Raise; discriminate].
  intros [= <-]. exists files, f, link.
  split; [reflexivity|]. split; [exact Hf|]. split; [exact Hlink|].
  destruct (url_extension link); reflexivity.
Qed.

(** X19. [select_and_download_video] raises exactly what [select_video]
    raises, and when the search has no video it goes on to download the
    video [None] with the requested size as quality. *)
Theorem select_and_download_errors (query : string)
    (orientation size : option string) (selection_method output_dir : string)
    (duration offset : option Z) :
  (forall e,
     select_and_download_video search_videos get_video randbelow makedirs
       url_extension download_file query orientation size selection_method
       output_dir duration offset = Raise e <->
     select_video query orientation size selection_method offset duration
     = Raise e) /\
  (search_videos query orientation size = Ok (Some []) ->
   select_and_download_video search_videos get_video randbelow makedirs
     url_extension download_file query orientation size selection_method
     output_dir duration offset
   = Ok (download_video None size output_dir)).
Proof.
  unfold Pexels.select_and_download_video, download_video_by_id. split.
  - intros e.
    destruct (select_video query orientation size selection_method offset duration)
      as [i|e'].
    + rewrite bind_Ok. split; discriminate.
    + rewrite bind_Raise. split; intros [= ->]; reflexivity.
  - intros Hs. unfold Pexels.select_video. rewrite Hs, !bind_Ok. reflexivity.
Qed.

End Client.


(** *** The properties above on the sample results *)

Import SampleMore.

Lemma select_video_sound_witness :
  exists found v,
    search videos "dunes" None None = Ok (Some found) /\
    In v found /\ video_id v = Some 12 /\
    forall d, Some 10 = Some d ->
      exists vd, video_duration v = Some vd /\ d <= vd.
Proof.
  apply (select_video_sound (search videos) randbelow "dunes" None None
           "best" None (Some 10) 12).
  vm_compute. reflexivity.
Defined.


Lemma empty_versus_too_short_witness :
  select_video (search []) randbelow "dunes" None None "best" None (Some 40)
  = Ok None /\
  select_video (search videos) randbelow "dunes" None None "best" None (Some 40)
  = Raise Py.ValueError.
Proof.
  split.
  - apply (empty_versus_too_short (search []) randbelow "dunes" None None
             "best" None (Some 40) 40 []); reflexivity.
  - apply (empty_versus_too_short (search videos) randbelow "dunes" None None
             "best" None (Some 40) 40 videos).
    + reflexivity.
    + discriminate.
    + repeat constructor; eexists; (split; [reflexivity | lia]).
Defined.

Lemma missing_duration_raises_witness :
  select_video (search videos_undated) randbelow "dunes" None None "best" None
    (Some 1) = Raise Py.TypeError.
Proof.
  apply (missing_duration_raises (search videos_undated) randbelow "dunes" None
           None "best" None 1 videos_undated).
  - reflexivity.
  - apply Exists_cons_tl, Exists_cons_hd. reflexivity.
Defined.

Lemma offset_selection_witness :
  select_video (search videos) randbelow "dunes" None None "offset" (Some 3) None
  = Ok None /\
  select_video (search videos) randbelow "dunes" None None "offset" (Some (-4)) None
  = Raise Py.IndexError.
Proof.
  split.
  - apply (offset_selection (search videos) randbelow "dunes" None None videos 3);
      [reflexivity | discriminate | simpl; lia].
  - apply (offset_selection (search videos) randbelow "dunes" None None videos (-4));
      [reflexivity | discriminate | simpl; lia].
Defined.

Lemma random_selection_witness :
  exists v i,
    In v videos /\ video_id v = Some i /\
    select_video (search videos) randbelow "dunes" None None "random" None None
    = Ok (Some i).
Proof.
  apply (random_selection (search videos) randbelow "dunes" None None None videos).
  - intros n Hn. unfold randbelow. lia.
  - reflexivity.
  - discriminate.
  - repeat constructor; eexists; reflexivity.
Defined.

Lemma first_match_is_target_witness :
  target_file (Some "hd"%string) ([file_sd] ++ file_hd :: [file_hd_small])
  = Ok file_hd.
Proof.
  apply (first_match_is_target (Some "hd"%string) [file_sd] [file_hd_small] file_hd).
  - repeat constructor. discriminate.
  - reflexivity.
  - reflexivity.
Defined.

Lemma fallback_is_largest_witness :
  match target_file (Some "medium"%string) [file_sd; file_hd; file_hd_small] with
  | Ok f =>
      exists l1 l2,
        [file_sd; file_hd; file_hd_small] = l1 ++ f :: l2 /\
        Forall (fun g => area g < area f) l1 /\
        Forall (fun g => area g <= area f) l2
  | Raise e => [file_sd; file_hd; file_hd_small] = [] /\ e = Py.IndexError
  end.
Proof.
  apply (fallback_is_largest (Some "medium"%string) [file_sd; file_hd; file_hd_small]).
  repeat constructor; discriminate.
Defined.

Lemma download_path_shape_witness :
  exists files f link,
    get_video (Some 12) = Ok files /\
    target_file (Some "medium"%string) files = Ok f /\
    file_link f = Some link /\
    "temp/video/pexels_video_12.mp4"%string
    = Os.path_join "temp/video"
        ("pexels_video_" +:+ str_id (Some 12) +:+
         (if bool_decide (url_extension link = "") then ".mp4"
          else url_extension link)).
Proof.
  apply (download_path_shape get_video makedirs url_extension download_fails
           (Some 12) (Some "medium"%string) "temp/video").
  vm_compute. reflexivity.
Defined.

Lemma select_and_download_errors_witness :
  select_and_download_video (search []) get_video randbelow makedirs
    url_extension download_fails "dunes" None (Some "medium"%string) "best"
    "temp/video" None None
  = Ok (Some "temp/video/pexels_video_None.mp4"%string).
Proof.
  rewrite (proj2 (select_and_download_errors (search []) get_video randbelow
                    makedirs url_extension download_fails "dunes" None
                    (Some "medium"%string) "best" "temp/video" None None)
             eq_refl).
  vm_compute. reflexivity.
Defined.

End PexelsFacts.

(* ===================================================================== *)
(** * Properties of the audio files *)
(* ===================================================================== *)

Module AudioFacts.

Import PyFacts Timeline Audio.

#[local] Arguments String.append : simpl nomatch.

Lemma all_paths_Some (paths : list string) : all_paths (Some <$> paths) = Some paths.
Proof.
  unfold all_paths. induction paths as [|p paths IH]; [reflexivity|].
  rewrite fmap_cons. simpl. rewrite IH. reflexivity.
Qed.

Lemma all_paths_None (files : list (option string)) :
  In None files -> all_paths files = None.
Proof.
  unfold all_paths. induction files as [|f files IH]; intros H; [destruct H|].
  destruct H as [->|H]; [reflexivity|].
  simpl. destruct f as [p|]; [|reflexivity]. simpl. rewrite (IH H). reflexivity.
Qed.

(** A list holding a [None] cannot be sorted and joined. *)
Lemma reading_order_None (files : list (option string)) :
  In None files -> reading_order files = Raise Py.TypeError.
Proof.
  intros H. unfold reading_order, sort_files. rewrite (all_paths_None _ H).
  destruct (2 <=? length files)%nat; [reflexivity|].
  rewrite bind_Ok. unfold join_files. rewrite (all_paths_None _ H). reflexivity.
Qed.

(** **** Joining with blanks and splitting on blanks *)

Lemma split_from_word (w : string) : forall cur rest,
  Xml.all_chars (fun c => negb (Py.is_space c)) w = true ->
  Py.split_from (Some cur) (w +:+ rest) = Py.split_from (Some (cur +:+ w)) rest.
Proof.
  induction w as [|c w IH]; intros cur rest H.
  - simpl. rewrite ParserFacts.append_empty_r. reflexivity.
  - simpl in H. apply andb_prop in H as [Hc Hw]. apply negb_true_iff in Hc.
    simpl. rewrite Hc, (IH _ _ Hw), ParserFacts.append_assoc. reflexivity.
Qed.

Lemma all_chars_impl (p q : ascii -> bool) (s : string) :
  (forall c, p c = true -> q c = true) ->
  Xml.all_chars p s = true -> Xml.all_chars q s = true.
Proof.
  intros Hpq. induction s as [|c s IH]; [reflexivity|].
  simpl. intros H. apply andb_prop in H as [Hc Hs].
  rewrite (Hpq c Hc), (IH Hs). reflexivity.
Qed.

Lemma split_from_unbroken (w rest : string) :
  unbroken w ->
  Py.split_from None (w +:+ rest) = Py.split_from (Some w) rest.
Proof.
  intros [Hne Hw].
  apply (all_chars_impl _ (fun c => negb (Py.is_space c))) in Hw;
    [|intros c Hc; apply andb_prop in Hc as [Hc _]; exact Hc].
  destruct w as [|c w]; [contradiction|].
  simpl in Hw. apply andb_prop in Hw as [Hc Hw]. apply negb_true_iff in Hc.
  simpl. rewrite Hc. apply (split_from_word w (String c "") rest Hw).
Qed.

Lemma split_join (paths : list string) :
  Forall unbroken paths -> Py.split (join " " paths) = paths.
Proof.
  unfold Py.split. induction 1 as [|p paths Hp Hrest IH]; [reflexivity|].
  destruct paths as [|q paths].
  - simpl. rewrite <- (ParserFacts.append_empty_r p) at 1.
    rewrite (split_from_unbroken p "" Hp). reflexivity.
  - change (join " " (p :: q :: paths)) with (p +:+ " " +:+ join " " (q :: paths)).
    rewrite (split_from_unbroken p _ Hp).
    change (Py.split_from (Some p) (" " +:+ join " " (q :: paths)))
      with (p :: Py.split_from None (join " " (q :: paths))).
    rewrite IH. reflexivity.
Qed.

(** X20. When every download gave a path, and no path is empty or holds a
    blank, the files are read for concatenation in sorted path order: the
    reading order is the sorted rearrangement of the paths, whatever order
    the verses came in. *)
Theorem reading_order_sorted (paths : list string) :
  Forall unbroken paths ->
  exists files,
    reading_order (Some <$> paths) = Ok files /\
    files ≡ₚ paths /\ StronglySorted String.le files.
Proof.
  intros H. exists (merge_sort String.le paths). split; [|split].
  - unfold reading_order, sort_files, join_files.
    rewrite all_paths_Some, bind_Ok, all_paths_Some, bind_Ok.
    rewrite split_join; [reflexivity|]. rewrite merge_sort_Permutation. exact H.
  - apply merge_sort_Permutation.
  - apply StronglySorted_merge_sort; apply _.
Qed.


(** **** Paths derived from a URL *)

Lemma split_on_plain (sep : ascii) (w : string) : forall cur,
  Xml.all_chars (fun c => negb (Ascii.eqb c sep)) w = true ->
  split_on sep w cur = [cur +:+ w].
Proof.
  induction w as [|c w IH]; intros cur H.
  - simpl. rewrite ParserFacts.append_empty_r. reflexivity.
  - simpl in H. apply andb_prop in H as [Hc Hw]. apply negb_true_iff in Hc.
    change (split_on sep (String c w) cur)
      with (if Ascii.eqb c sep then cur :: split_on sep w ""
            else split_on sep w (cur +:+ String c "")).
    rewrite Hc, (IH _ Hw), ParserFacts.append_assoc. reflexivity.
Qed.

Lemma split_on_part (sep : ascii) (w rest : string) : forall cur,
  Xml.all_chars (fun c => negb (Ascii.eqb c sep)) w = true ->
  split_on sep (w +:+ String sep rest) cur
  = (cur +:+ w) :: split_on sep rest "".
Proof.
  induction w as [|c w IH]; intros cur H.
  - change (split_on sep ("" +:+ String sep rest) cur)
      with (if Ascii.eqb sep sep then cur :: split_on sep rest ""
            else split_on sep rest (cur +:+ String sep "")).
    rewrite Ascii.eqb_refl, ParserFacts.append_empty_r. reflexivity.
  - simpl in H. apply andb_prop in H as [Hc Hw]. apply negb_true_iff in Hc.
    change (split_on sep (String c w +:+ String sep rest) cur)
      with (if Ascii.eqb c sep then cur :: split_on sep (w +:+ String sep rest) ""
            else split_on sep (w +:+ String sep rest) (cur +:+ String c "")).
    rewrite Hc, (IH _ Hw), ParserFacts.append_assoc. reflexivity.
Qed.

(** The last two parts of a URL that ends with [/dir/file]. *)
Lemma split_on_tail (base dir file : string) : forall cur,
  Xml.all_chars (fun c => negb (Ascii.eqb c "/")) dir = true ->
  Xml.all_chars (fun c => negb (Ascii.eqb c "/")) file = true ->
  exists front,
    split_on "/" (base +:+ "/" +:+ dir +:+ "/" +:+ file) cur
    = front ++ [dir; file].
Proof.
  intros cur Hd Hf. revert cur. induction base as [|c base IH]; intros cur.
  - exists [cur]. simpl.
    change (dir +:+ "/" +:+ file) with (dir +:+ String "/" file).
    rewrite (split_on_part "/" dir file "" Hd), (split_on_plain "/" file "" Hf).
    reflexivity.
  - change (split_on "/" (String c base +:+ "/" +:+ dir +:+ "/" +:+ file) cur)
      with (if Ascii.eqb c "/"
            then cur :: split_on "/" (base +:+ "/" +:+ dir +:+ "/" +:+ file) ""
            else split_on "/" (base +:+ "/" +:+ dir +:+ "/" +:+ file)
                   (cur +:+ String c "")).
    destruct (Ascii.eqb c "/").
    + destruct (IH "") as [front ->]. exists (cur :: front). reflexivity.
    + apply IH.
Qed.

Lemma index_from_end {A} (front : list A) (a b : A) :
  Py.index (front ++ [a; b]) (-1) = Ok b /\
  Py.index (front ++ [a; b]) (-2) = Ok a /\
  (2 <=? length (front ++ [a; b]))%nat = true.
Proof.
  assert (Hlen : length (front ++ [a; b]) = S (S (length front)))
    by (rewrite length_app; simpl; lia).
  split; [|split].
  - rewrite TimelineFacts.index_last, last_app. reflexivity.
  - unfold Py.index. rewrite Hlen.
    replace (-2 <? 0) with true by reflexivity.
    replace ((0 <=? -2 + Z.of_nat (S (S (length front))))
             && (-2 + Z.of_nat (S (S (length front))) <? Z.of_nat (S (S (length front)))))
      with true
      by (symmetry; apply andb_true_intro; split;
          [apply Z.leb_le | apply Z.ltb_lt]; lia).
    replace (Z.to_nat (-2 + Z.of_nat (S (S (length front))))) with (length front) by lia.
    rewrite lookup_app_r by lia. rewrite Nat.sub_diag. reflexivity.
  - rewrite Hlen. reflexivity.
Qed.

Lemma ends_with_slash_app (a d : string) :
  d <> "" -> Xml.all_chars (fun c => negb (Ascii.eqb c "/")) d = true ->
  Os.ends_with_slash (a +:+ d) = false.
Proof.
  intros Hne Hd. induction a as [|c a IH].
  - simpl. clear Hne. induction d as [|c d IH]; [reflexivity|].
    simpl in Hd. apply andb_prop in Hd as [Hc Hd]. apply negb_true_iff in Hc.
    simpl. destruct d; [exact Hc | exact (IH Hd)].
  - simpl. destruct (a +:+ d) as [|x s] eqn:Hs; [|exact IH].
    destruct a; [|discriminate]. simpl in Hs. contradiction.
Qed.

(** X21. For a URL that ends with [/dir/file], the audio file is expected
    at [temp/audio/dir/file], in the directory [temp/audio/dir], whatever
    comes before. *)
Theorem audio_paths_of_url (base dir file : string) :
  dir <> "" ->
  Xml.all_chars (fun c => negb (Ascii.eqb c "/")) dir = true ->
  Xml.all_chars (fun c => negb (Ascii.eqb c "/")) file = true ->
  audio_paths (base +:+ "/" +:+ dir +:+ "/" +:+ file)
  = Ok ("temp/audio/" +:+ dir, "temp/audio/" +:+ dir +:+ "/" +:+ file).
Proof.
  intros Hne Hd Hf. unfold audio_paths.
  destruct (split_on_tail base dir file "" Hd Hf) as [front ->].
  destruct (index_from_end front dir file) as (-> & -> & ->).
  rewrite !bind_Ok.
  assert (Hdir : Os.path_join "temp/audio" dir = "temp/audio/" +:+ dir).
  { destruct dir as [|c dir]; [contradiction|].
    simpl in Hd. apply andb_prop in Hd as [Hc _]. apply negb_true_iff in Hc.
    unfold Os.path_join.
    destruct c as [[] [] [] [] [] [] [] []]; try reflexivity. discriminate. }
  rewrite Hdir. f_equal. f_equal.
  unfold Os.path_join.
  replace (Os.ends_with_slash ("temp/audio/" +:+ dir)) with false
    by (symmetry; apply ends_with_slash_app; assumption).
  destruct file as [|c file]; [reflexivity|].
  simpl in Hf. apply andb_prop in Hf as [Hc _]. apply negb_true_iff in Hc.
  destruct c as [[] [] [] [] [] [] [] []]; try reflexivity. discriminate.
Qed.


Section Files.

Variable FS : Type.
Variable path_exists : FS -> string -> bool.
Variable makedirs : string -> FS -> Py.result FS.
Variable download_file : string -> string -> FS -> Py.result (option string * FS).
Variable Sound : Type.
Variable empty : Sound.
Variable add : Sound -> Sound -> Sound.
Variable from_mp3 : string -> FS -> Py.result Sound.
Variable export : Sound -> string -> FS -> Py.result FS.

Abbreviation audio_file := (audio_file FS path_exists makedirs download_file).
Abbreviation audio_files_loop :=
  (audio_files_loop FS path_exists makedirs download_file).
Abbreviation get_audio_file_paths :=
  (get_audio_file_paths FS path_exists makedirs download_file).
Abbreviation get_words_and_audio :=
  (get_words_and_audio FS path_exists makedirs download_file Sound empty add
     from_mp3 export).

Lemma audio_files_loop_present (urls : list string) (fs : FS) : forall acc,
  Forall (fun url => exists p, audio_paths url = Ok p /\
                               path_exists fs p.2 = true) urls ->
  exists paths,
    audio_files_loop urls fs acc = Ok (acc ++ (Some <$> paths), fs) /\
    Forall2 (fun url path => exists d, audio_paths url = Ok (d, path)) urls paths.
Proof.
  induction urls as [|url urls IH]; intros acc H.
  - exists []. simpl. rewrite app_nil_r. auto.
  - inversion H as [|? ? ([d p] & Hp & Hex) Hrest]; subst. simpl in Hex.
    destruct (IH (acc ++ [Some p]) Hrest) as (paths & Hloop & Hall).
    exists (p :: paths). split.
    + cbn [Audio.audio_files_loop]. unfold Audio.audio_file.
      rewrite Hp, bind_Ok. cbn [snd fst]. rewrite Hex. cbn [negb].
      rewrite bind_Ok. cbn [snd fst]. rewrite Hloop.
      rewrite <- app_assoc. reflexivity.
    + constructor; [eauto | exact Hall].
Qed.

(** X22. When the file of every URL is already on disk, nothing is
    downloaded and no directory is made: the file system is left as it is
    and the paths of the files are returned, in the order of the URLs. *)
Theorem present_files_not_downloaded (urls : list string) (fs : FS) :
  Forall (fun url => exists p, audio_paths url = Ok p /\
                               path_exists fs p.2 = true) urls ->
  exists paths,
    get_audio_file_paths urls fs = Ok (Some <$> paths, fs) /\
    Forall2 (fun url path => exists d, audio_paths url = Ok (d, path)) urls paths.
Proof.
  intros H. destruct (audio_files_loop_present urls fs [] H) as (paths & Hl & Hp).
  exists paths. split; [exact Hl | exact Hp].
Qed.

(** X23. The audio work after the verse loop never changes the records:
    when the whole function returns, it returns the records of the verse
    loop, and an exception of the verse loop is raised unchanged. *)
Theorem audio_keeps_records
    (quran_data : option (gmap Z (gmap Z string)))
    (timestamp_data : option (gmap (Z * Z) TimestampEntry))
    (translation_data : option (gmap (Z * Z * Z) string))
    (surah_number aya_start aya_end : Z) (fs : FS) :
  (forall words fs',
     get_words_and_audio quran_data timestamp_data translation_data
       surah_number aya_start aya_end fs = Ok (words, fs') ->
     get_words_with_timestamps quran_data timestamp_data translation_data
       surah_number aya_start aya_end = Ok words) /\
  (forall e,
     get_words_with_timestamps quran_data timestamp_data translation_data
       surah_number aya_start aya_end = Raise e ->
     get_words_and_audio quran_data timestamp_data translation_data
       surah_number aya_start aya_end fs = Raise e).
Proof.
  unfold Audio.get_words_and_audio, get_words_with_timestamps.
  destruct quran_data as [q|], timestamp_data as [t|], translation_data as [tr|];
    try (split; [intros words fs' [= <- _]; reflexivity | discriminate]).
  destruct (verse_loop q t tr surah_number _ initial) as [st|e0];
    [rewrite !bind_Ok
    | rewrite !bind_Raise; split; [discriminate | intros e [= ->]; reflexivity]].
  split; [|discriminate]. intros words fs'.
  destruct (Audio.get_audio_file_paths _ _ _ _ _ _) as [r|e1];
    [rewrite bind_Ok | rewrite bind_Raise; discriminate].
  destruct (reading_order r.1) as [files|e1];
    [rewrite bind_Ok | rewrite bind_Raise; discriminate].
  destruct (read_all _ _ _ _ _ _ _) as [combined|e1];
    [rewrite bind_Ok | rewrite bind_Raise; discriminate].
  destruct (export _ _ _) as [fs1|e1];
    [rewrite bind_Ok | rewrite bind_Raise; discriminate].
  intros [= <- _]. reflexivity.
Qed.

(** X24. A download that failed is not skipped: when [download_file] gave
    [None] for some verse, sorting and joining the paths raises [TypeError]
    and the records of the verse loop are lost. *)
Theorem failed_download_raises
    (quran_data : gmap Z (gmap Z string))
    (timestamp_data : gmap (Z * Z) TimestampEntry)
    (translation_data : gmap (Z * Z * Z) string)
    (surah_number aya_start aya_end : Z) (fs fs1 : FS)
    (st : LoopState) (files : list (option string)) :
  verse_loop quran_data timestamp_data translation_data surah_number
    (Py.range aya_start (aya_end + 1)) initial = Ok st ->
  get_audio_file_paths (audio_urls st) fs = Ok (files, fs1) ->
  In None files ->
  get_words_and_audio (Some quran_data) (Some timestamp_data)
    (Some translation_data) surah_number aya_start aya_end fs
  = Raise Py.TypeError.
Proof.
  intros Hloop Hfiles Hnone. unfold Audio.get_words_and_audio.
  rewrite Hloop, bind_Ok, Hfiles, bind_Ok. simpl.
  rewrite (reading_order_None _ Hnone). reflexivity.
Qed.

End Files.


(** *** The properties above on sample files *)

Import SampleMore.

Lemma reading_order_sorted_witness :
  exists files,
    reading_order (Some <$> ["temp/audio/x/2.mp3"; "temp/audio/x/10.mp3"]%string)
    = Ok files /\
    files ≡ₚ ["temp/audio/x/2.mp3"; "temp/audio/x/10.mp3"]%string /\
    StronglySorted String.le files.
Proof.
  apply (reading_order_sorted ["temp/audio/x/2.mp3"; "temp/audio/x/10.mp3"]%string).
  repeat constructor; discriminate.
Defined.

Lemma audio_paths_of_url_witness :
  audio_paths ("https://cdn.example" +:+ "/" +:+ "husary" +:+ "/" +:+ "001001.mp3")
  = Ok ("temp/audio/" +:+ "husary",
        "temp/audio/" +:+ "husary" +:+ "/" +:+ "001001.mp3")%string.
Proof.
  apply (audio_paths_of_url "https://cdn.example" "husary" "001001.mp3");
    [discriminate | reflexivity | reflexivity].
Defined.

Lemma present_files_not_downloaded_witness :
  exists paths,
    get_audio_file_paths (list string) on_disk make fetch_fails
      ["https://cdn.example/husary/001001.mp3"]%string
      ["temp/audio/husary/001001.mp3"]%string
    = Ok (Some <$> paths, ["temp/audio/husary/001001.mp3"]%string) /\
    Forall2 (fun url path => exists d, audio_paths url = Ok (d, path))
      ["https://cdn.example/husary/001001.mp3"]%string paths.
Proof.
  apply (present_files_not_downloaded (list string) on_disk make fetch_fails
           ["https://cdn.example/husary/001001.mp3"]%string
           ["temp/audio/husary/001001.mp3"]%string).
  repeat constructor. eexists. split; vm_compute; reflexivity.
Defined.

Lemma audio_keeps_records_witness :
  exists words,
    get_words_with_timestamps (Some Sample.quran) (Some Sample.timestamps)
      (Some Sample.translations) 1 1 3 = Ok words /\
    length words = 6%nat.
Proof.
  eexists. split.
  - eapply (proj1 (audio_keeps_records (list string) on_disk make fetch
                     (list string) [] (@app string) read write
                     (Some Sample.quran) (Some Sample.timestamps)
                     (Some Sample.translations) 1 1 3 [])).
    vm_compute. reflexivity.
  - reflexivity.
Defined.

Lemma failed_download_raises_witness :
  get_words_and_audio (list string) on_disk make fetch_fails (list string) []
    (@app string) read write (Some Sample.quran) (Some Sample.timestamps)
    (Some Sample.translations) 1 1 3 []
  = Raise Py.TypeError.
Proof.
  eapply (failed_download_raises (list string) on_disk make fetch_fails
            (list string) [] (@app string) read write Sample.quran
            Sample.timestamps Sample.translations 1 1 3 []).
  - vm_compute. reflexivity.
  - vm_compute. reflexivity.
  - left. reflexivity.
Defined.

End AudioFacts.

(* ===================================================================== *)
(** * Further properties of the suggestion parser *)
(* ===================================================================== *)

Module ParserExtras.

Import PyFacts Parser.

Section Parse.

Variable fromstring : string -> option Xml.Element.
Variable float_of_str : string -> option Q.

Abbreviation suggestion_of := (suggestion_of float_of_str).
Abbreviation collect := (collect float_of_str).

Lemma collect_ok (elems : list Xml.Element) : forall acc l,
  collect elems acc = Ok l ->
  exists new,
    l = acc ++ new /\
    Forall2 (fun v s => suggestion_of v = Ok s) elems new.
Proof.
  induction elems as [|v elems IH]; intros acc l H; simpl in H.
  - injection H as <-. exists []. rewrite app_nil_r. auto.
  - destruct (suggestion_of v) as [s|e] eqn:Hv;
      [rewrite bind_Ok in H | rewrite bind_Raise in H; discriminate].
    destruct (IH _ _ H) as (new & -> & Hnew).
    exists (s :: new). rewrite <- app_assoc. split; [reflexivity|].
    constructor; assumption.
Qed.

(** X25. A successful parse gives exactly one suggestion for each [video]
    element below the root, in document order. *)
Theorem one_suggestion_per_video (llm_output : string)
    (suggestions : list VideoSuggestion) :
  parse_video_suggestions fromstring float_of_str llm_output = Ok suggestions ->
  exists root,
    fromstring ("<root>" +:+ llm_output +:+ "</root>") = Some root /\
    Forall2 (fun v s => suggestion_of v = Ok s)
            (Xml.findall_below "video" root) suggestions.
Proof.
  unfold parse_video_suggestions, parse_body.
  destruct (fromstring ("<root>" +:+ llm_output +:+ "</root>")) as [root|];
    [|discriminate].
  destruct (Parser.collect float_of_str _ []) as [l|e] eqn:Hc; [|discriminate].
  intros [= <-]. exists root. split; [reflexivity|].
  destruct (collect_ok _ _ _ Hc) as (new & -> & Hnew). exact Hnew.
Qed.

Lemma find_app (name : string) (t x : option string) (tag tag' : string)
    (t' x' : option string) (kids extra : list Xml.Element) (e : Xml.Element) :
  Xml.find name (Xml.Elem tag t kids x) = Some e ->
  Xml.find name (Xml.Elem tag' t' (kids ++ extra) x') = Some e.
Proof.
  unfold Xml.find. simpl. induction kids as [|k kids IH]; [discriminate|].
  simpl. destruct (bool_decide (Xml.tag k = name)); auto.
Qed.

(** X26. Only the first [query], [start] and [end] children of a [video]
    element count: children added after them, and the element's own text,
    do not change the suggestion. *)
Theorem later_children_ignored (tag tag' : string) (t t' x x' : option string)
    (kids extra : list Xml.Element) (s : VideoSuggestion) :
  suggestion_of (Xml.Elem tag t kids x) = Ok s ->
  suggestion_of (Xml.Elem tag' t' (kids ++ extra) x') = Ok s.
Proof.
  unfold Parser.suggestion_of, text_of.
  destruct (Xml.find "query" (Xml.Elem tag t kids x)) as [q|] eqn:Hq;
    [|rewrite bind_Raise; discriminate].
  rewrite (find_app _ _ _ _ tag' t' x' _ extra _ Hq).
  destruct (Xml.find "start" (Xml.Elem tag t kids x)) as [a|] eqn:Ha;
    [|rewrite bind_Ok, bind_Raise; discriminate].
  rewrite (find_app _ _ _ _ tag' t' x' _ extra _ Ha).
  destruct (Xml.find "end" (Xml.Elem tag t kids x)) as [b|] eqn:Hb.
  - rewrite (find_app _ _ _ _ tag' t' x' _ extra _ Hb). auto.
  - rewrite !bind_Ok. destruct (float float_of_str (Xml.text a));
      [rewrite bind_Ok, bind_Raise | rewrite bind_Raise]; discriminate.
Qed.

End Parse.

Lemma one_suggestion_per_video_witness :
  exists root,
    Xml.fromstring ("<root>" +:+ (Sample.desert_video +:+ Sample.desert_video)
                    +:+ "</root>") = Some root /\
    Forall2 (fun v s => Parser.suggestion_of decimal v = Ok s)
            (Xml.findall_below "video" root) [Sample.desert; Sample.desert].
Proof.
  apply (one_suggestion_per_video Xml.fromstring decimal
           (Sample.desert_video +:+ Sample.desert_video)).
  vm_compute. reflexivity.
Defined.

Lemma later_children_ignored_witness :
  Parser.suggestion_of decimal
    (Xml.Elem "video" (Some "dunes"%string)
       ([Xml.Elem "query" (Some "desert"%string) [] None;
         Xml.Elem "start" (Some "0"%string) [] None;
         Xml.Elem "end" (Some "3.2"%string) [] None]
        ++ [Xml.Elem "end" (Some "9"%string) [] None]) None)
  = Ok Sample.desert.
Proof.
  apply (later_children_ignored decimal "video" "video" None
           (Some "dunes"%string) None None).
  vm_compute. reflexivity.
Defined.

End ParserExtras.
